(** * Query classification, treatment matching, price extraction and
      response formatting of the healthcare chat assistant

    A shallow embedding of the text-processing core of the repository
    ([pattern_matching.py], [text_processing.py], [document_utils.py],
    [response_formatter.py] and the older [utils.py]) and the properties
    the specification states about it.

    Modelling conventions.
    - A Python [str] is a [string]; a character is an 8-bit code point
      (the Latin-1 range of Unicode).  On that range the character
      classes below agree with CPython's [str.isspace], [str.lower],
      [str.isdigit] and with the [re] module's [\s], [\d], [\w].
    - A compiled pattern is a [regex] term written after the pattern
      text; matching is a backtracking matcher with the priorities of
      the [re] module (leftmost match, alternatives left to right,
      greedy and lazy repetition).
    - A Python [dict] is an association list kept in insertion order
      without duplicate keys; a [set] of words is a [gset string].
    - [random.choice] takes the drawn index as an explicit argument.
    - An exception is a value [Raise e] of the type [result]. *)

From Stdlib Require Import Ascii String List Arith Lia ZArith NArith Bool.
From Stdlib Require Import DecimalString QArith.
From stdpp Require Import base list strings gmap.

Import ListNotations.
Close Scope Q_scope.
Local Open Scope bool_scope.

(** ** Python strings *)

Module Py.

Definition code (c : ascii) : N := N_of_ascii c.

Definition between (lo hi n : N) : bool := ((lo <=? n) && (n <=? hi))%N.

(** [str.isspace] on one character. *)
Definition isspace (c : ascii) : bool :=
  let n := code c in
  between 9 13 n || between 28 32 n || (n =? 133)%N || (n =? 160)%N.

(** [\d]: the decimal digits. *)
Definition isdecimal (c : ascii) : bool := between 48 57 (code c).

(** [str.isdigit] on one character: the decimal digits and the
    superscripts one, two and three. *)
Definition isdigit_char (c : ascii) : bool :=
  let n := code c in
  between 48 57 n || (n =? 178)%N || (n =? 179)%N || (n =? 185)%N.

Definition isupper_char (c : ascii) : bool :=
  let n := code c in
  between 65 90 n || (between 192 222 n && negb (n =? 215)%N).

Definition lower_char (c : ascii) : ascii :=
  if isupper_char c then ascii_of_N (code c + 32) else c.

Definition islower_pair (c : ascii) : bool :=
  let n := code c in
  between 97 122 n || (between 224 254 n && negb (n =? 247)%N).

(** The upper-case partner of a character when it lies in the 8-bit
    range (used only by case-insensitive matching). *)
Definition upper_char (c : ascii) : ascii :=
  if islower_pair c then ascii_of_N (code c - 32) else c.

(** [\w]: alphanumeric characters and the underscore. *)
Definition isword (c : ascii) : bool :=
  let n := code c in
  between 48 57 n || between 65 90 n || (n =? 95)%N || between 97 122 n
  || (n =? 170)%N || (n =? 178)%N || (n =? 179)%N || (n =? 181)%N
  || (n =? 185)%N || (n =? 186)%N || between 188 190 n
  || (between 192 255 n && negb (n =? 215)%N && negb (n =? 247)%N).

Fixpoint lower (s : string) : string :=
  match s with
  | EmptyString => EmptyString
  | String c s' => String (lower_char c) (lower s')
  end.

(** [s[:n]] for [n >= 0]. *)
Fixpoint take (n : nat) (s : string) : string :=
  match n, s with
  | S n', String c s' => String c (take n' s')
  | _, _ => EmptyString
  end.

(** [s[n:]] for [n >= 0]. *)
Fixpoint drop (n : nat) (s : string) : string :=
  match n, s with
  | S n', String _ s' => drop n' s'
  | _, _ => s
  end.

Fixpoint rev_onto (s acc : string) : string :=
  match s with
  | EmptyString => acc
  | String c s' => rev_onto s' (String c acc)
  end.

Definition rev (s : string) : string := rev_onto s EmptyString.

Fixpoint lstrip (s : string) : string :=
  match s with
  | String c s' => if isspace c then lstrip s' else s
  | EmptyString => EmptyString
  end.

Definition rstrip (s : string) : string := rev (lstrip (rev s)).

(** [s.strip()] *)
Definition strip (s : string) : string := rstrip (lstrip s).

Fixpoint startswith (p s : string) : bool :=
  match p, s with
  | EmptyString, _ => true
  | String a p', String b s' => Ascii.eqb a b && startswith p' s'
  | String _ _, EmptyString => false
  end.

(** [s.endswith(p)] *)
Definition endswith (p s : string) : bool :=
  startswith (rev p) (rev s).

(** [p in s] for strings. *)
Fixpoint contains (p s : string) : bool :=
  startswith p s ||
  match s with
  | EmptyString => false
  | String _ s' => contains p s'
  end.

(** [sep.join(parts)] *)
Fixpoint join (sep : string) (parts : list string) : string :=
  match parts with
  | [] => EmptyString
  | [p] => p
  | p :: rest => p +:+ sep +:+ join sep rest
  end.

(** [s.isdigit()] *)
Fixpoint all_digits (s : string) : bool :=
  match s with
  | EmptyString => true
  | String c s' => isdigit_char c && all_digits s'
  end.

Definition isdigit (s : string) : bool :=
  match s with
  | EmptyString => false
  | _ => all_digits s
  end.

(** [s.split()] with no argument: the maximal runs of non-space
    characters.  [cur] is the current run, reversed. *)
Fixpoint split_ws_aux (s cur : string) : list string :=
  match s with
  | EmptyString =>
      match cur with EmptyString => [] | _ => [rev cur] end
  | String c s' =>
      if isspace c then
        match cur with
        | EmptyString => split_ws_aux s' EmptyString
        | _ => rev cur :: split_ws_aux s' EmptyString
        end
      else split_ws_aux s' (String c cur)
  end.

Definition split_ws (s : string) : list string := split_ws_aux s EmptyString.

(** [s.split(sep)] for a one-character separator: empty pieces are kept. *)
Fixpoint split_char_aux (sep : ascii) (s cur : string) : list string :=
  match s with
  | EmptyString => [rev cur]
  | String c s' =>
      if Ascii.eqb c sep then rev cur :: split_char_aux sep s' EmptyString
      else split_char_aux sep s' (String c cur)
  end.

Definition split_char (sep : ascii) (s : string) : list string :=
  split_char_aux sep s EmptyString.

(** [s.replace(old, new)] for a non-empty [old]: occurrences are replaced
    from the left and do not overlap.  [skip] counts the characters of
    the occurrence being replaced that are still to be passed over. *)
Fixpoint replace_aux (old new s : string) (skip : nat) : string :=
  match skip, s with
  | S k, String _ s' => replace_aux old new s' k
  | S _, EmptyString => EmptyString
  | 0, EmptyString => EmptyString
  | 0, String c s' =>
      if startswith old s
      then new +:+ replace_aux old new s' (String.length old - 1)
      else String c (replace_aux old new s' 0)
  end.

Definition replace (old new s : string) : string := replace_aux old new s 0.

(** [seq[:m]] for a list and any integer [m]: a negative bound counts
    from the end. *)
Definition slice_to {A} (m : Z) (l : list A) : list A :=
  if (0 <=? m)%Z then firstn (Z.to_nat m) l
  else firstn (length l - Z.to_nat (- m)) l.

(** [str(n)] for a natural number. *)
Definition str_of_nat (n : nat) : string :=
  NilEmpty.string_of_uint (Nat.to_uint n).

(** [c * n] for a one-character string [c]. *)
Fixpoint repeat_char (c : ascii) (n : nat) : string :=
  match n with
  | 0 => EmptyString
  | S n' => String c (repeat_char c n')
  end.

(** [c.upper()] as code points: the small sharp s becomes two letters,
    and the micro sign and the y with diaeresis leave the 8-bit range. *)
Definition upper_codes (c : ascii) : list N :=
  let n := code c in
  if (n =? 181)%N then [924%N]
  else if (n =? 223)%N then [83%N; 83%N]
  else if (n =? 255)%N then [376%N]
  else if islower_pair c then [(n - 32)%N]
  else [n].

(** [s.upper()], a sequence of code points. *)
Fixpoint upper (s : string) : list N :=
  match s with
  | EmptyString => []
  | String c s' => upper_codes c ++ upper s'
  end.

(** The code points of a string. *)
Fixpoint codes (s : string) : list N :=
  match s with
  | EmptyString => []
  | String c s' => code c :: codes s'
  end.

Fixpoint codes_startswith (p l : list N) : bool :=
  match p, l with
  | [], _ => true
  | a :: p', b :: l' => (a =? b)%N && codes_startswith p' l'
  | _ :: _, [] => false
  end.

(** [l.endswith(p)] on code points. *)
Definition codes_endswith (p l : list N) : bool :=
  codes_startswith (List.rev p) (List.rev l).

(** [s[:-n]] for [n > 0]. *)
Definition drop_last (n : nat) (s : string) : string :=
  take (String.length s - n) s.

(** Every character of [s] passes the test [P]. *)
Fixpoint all_chars (P : ascii -> bool) (s : string) : bool :=
  match s with
  | EmptyString => true
  | String c s' => P c && all_chars P s'
  end.

End Py.

(** ** Regular expressions: the fragment of [re] the sources use *)

Module Re.

(** One-character tests: [.], a literal, [\d], [\s], [\w], a range
    [a-z], the union of two tests (the members of a set [[...]]) and a
    complement ([[^...]], [\S]). *)
Inductive cls : Type :=
| CAny
| CLit (c : ascii)
| CDigit
| CSpace
| CWord
| CRange (lo hi : ascii)
| COr (k1 k2 : cls)
| CNot (k : cls).

(** [ic] is the [IGNORECASE] flag. *)
Fixpoint cls_match (ic : bool) (k : cls) (a : ascii) : bool :=
  match k with
  | CAny => negb (Ascii.eqb a "010"%char)
  | CLit c =>
      if ic then Ascii.eqb (Py.lower_char a) (Py.lower_char c)
      else Ascii.eqb a c
  | CDigit => Py.isdecimal a
  | CSpace => Py.isspace a
  | CWord => Py.isword a
  | CRange lo hi =>
      let inr x := Py.between (Py.code lo) (Py.code hi) (Py.code x) in
      if ic then inr a || inr (Py.lower_char a) || inr (Py.upper_char a)
      else inr a
  | COr k1 k2 => cls_match ic k1 a || cls_match ic k2 a
  | CNot k' => negb (cls_match ic k' a)
  end.

Inductive regex : Type :=
| RClass (k : cls)
| REmpty
| RSeq (r1 r2 : regex)
| RAlt (r1 r2 : regex)
| RStar (greedy : bool) (r : regex)
| RGroup (n : nat) (r : regex)
| RBol
| REol
| RLookbehind (k : cls)
| RLookahead (r : regex).

(** Derived forms. *)
Definition plus (greedy : bool) (r : regex) : regex :=
  RSeq r (RStar greedy r).

Definition opt (r : regex) : regex := RAlt r REmpty.

Fixpoint seq (rs : list regex) : regex :=
  match rs with
  | [] => REmpty
  | [r] => r
  | r :: rs' => RSeq r (seq rs')
  end.

Fixpoint alt (rs : list regex) : regex :=
  match rs with
  | [] => REmpty
  | [r] => r
  | r :: rs' => RAlt r (alt rs')
  end.

Fixpoint lit (s : string) : regex :=
  match s with
  | EmptyString => REmpty
  | String c EmptyString => RClass (CLit c)
  | String c s' => RSeq (RClass (CLit c)) (lit s')
  end.

(** The matcher's position: the character before it, the text after it
    and the groups captured so far (most recent first). *)
Record mstate : Type := MState {
  prev : option ascii;
  rest : string;
  caps : list (nat * string)
}.

(** Backtracking matcher in continuation-passing style: [k] is what
    remains to be matched after [r].  A repetition runs at most once per
    remaining character, since every repeated pattern of the sources
    consumes at least one character per round. *)
Fixpoint rmatch (ic : bool) (r : regex) (st : mstate)
    (k : mstate -> option mstate) {struct r} : option mstate :=
  match r with
  | RClass c =>
      match rest st with
      | String a s' =>
          if cls_match ic c a then k (MState (Some a) s' (caps st)) else None
      | EmptyString => None
      end
  | REmpty => k st
  | RSeq r1 r2 => rmatch ic r1 st (fun st' => rmatch ic r2 st' k)
  | RAlt r1 r2 =>
      match rmatch ic r1 st k with
      | Some x => Some x
      | None => rmatch ic r2 st k
      end
  | RStar g r' =>
      (fix loop (fuel : nat) (st0 : mstate) {struct fuel} : option mstate :=
         match fuel with
         | 0 => k st0
         | S fuel' =>
             if g then
               match rmatch ic r' st0 (fun st' =>
                       if String.length (rest st') <? String.length (rest st0)
                       then loop fuel' st' else None) with
               | Some x => Some x
               | None => k st0
               end
             else
               match k st0 with
               | Some x => Some x
               | None =>
                   rmatch ic r' st0 (fun st' =>
                     if String.length (rest st') <? String.length (rest st0)
                     then loop fuel' st' else None)
               end
         end) (String.length (rest st)) st
  | RGroup n r' =>
      rmatch ic r' st (fun st' =>
        let text :=
          Py.take (String.length (rest st) - String.length (rest st')) (rest st) in
        k (MState (prev st') (rest st') ((n, text) :: caps st')))
  | RBol => match prev st with None => k st | Some _ => None end
  | REol =>
      match rest st with
      | EmptyString => k st
      | String c EmptyString => if Ascii.eqb c "010"%char then k st else None
      | _ => None
      end
  | RLookbehind c =>
      match prev st with
      | Some a => if cls_match ic c a then k st else None
      | None => None
      end
  | RLookahead r' =>
      match rmatch ic r' st Some with
      | Some st' => k (MState (prev st) (rest st) (caps st'))
      | None => None
      end
  end.

(** A compiled pattern: the expression and its flags. *)
Record pattern : Type := Pattern { p_re : regex; p_icase : bool }.

(** A match object: start and end offsets in the searched string and the
    captured groups. *)
Record match_obj : Type := MatchObj {
  m_start : nat;
  m_end : nat;
  m_caps : list (nat * string)
}.

Fixpoint assoc_nat (n : nat) (l : list (nat * string)) : option string :=
  match l with
  | [] => None
  | (m, s) :: l' => if n =? m then Some s else assoc_nat n l'
  end.

(** [m.group(n)]: [None] when the group took no part in the match. *)
Definition group (n : nat) (m : match_obj) : option string :=
  assoc_nat n (m_caps m).

(** What [findall] reports for a group: the empty string when unset. *)
Definition group_or_empty (n : nat) (m : match_obj) : string :=
  match group n m with Some s => s | None => EmptyString end.

(** One attempt at the current position.  With [adv] set an empty match
    is refused (the position just after an empty match).  The result is
    the length matched and the groups. *)
Definition match_at (p : pattern) (pv : option ascii) (s : string)
    (adv : bool) : option (nat * list (nat * string)) :=
  match rmatch (p_icase p) (p_re p) (MState pv s [])
          (fun st' =>
             if adv && (String.length (rest st') =? String.length s)
             then None else Some st') with
  | Some st' => Some (String.length s - String.length (rest st'), caps st')
  | None => None
  end.

(** [p.match(s)] *)
Definition match_ (p : pattern) (s : string) : option match_obj :=
  match match_at p None s false with
  | Some (n, cs) => Some (MatchObj 0 n cs)
  | None => None
  end.

Fixpoint search_from (p : pattern) (pv : option ascii) (s : string)
    (pos : nat) : option match_obj :=
  match match_at p pv s false with
  | Some (n, cs) => Some (MatchObj pos (pos + n) cs)
  | None =>
      match s with
      | String a s' => search_from p (Some a) s' (S pos)
      | EmptyString => None
      end
  end.

(** [p.search(s)] *)
Definition search (p : pattern) (s : string) : option match_obj :=
  search_from p None s 0.

(** The successive matches that [findall], [sub] and [split] walk
    through: after a match the scan resumes at its end, and right after
    an empty match an empty match at the same place is refused.  [skip]
    counts the characters of the last match still to be passed over. *)
Fixpoint finditer_aux (p : pattern) (pv : option ascii) (s : string)
    (skip pos : nat) : list match_obj :=
  match skip with
  | S k =>
      match s with
      | String a s' => finditer_aux p (Some a) s' k (S pos)
      | EmptyString => []
      end
  | 0 =>
      match match_at p pv s false with
      | None =>
          match s with
          | String a s' => finditer_aux p (Some a) s' 0 (S pos)
          | EmptyString => []
          end
      | Some (S n, cs) =>
          MatchObj pos (pos + S n) cs ::
          match s with
          | String a s' => finditer_aux p (Some a) s' n (S pos)
          | EmptyString => []
          end
      | Some (0, cs) =>
          MatchObj pos pos cs ::
          match match_at p pv s true with
          | Some (S n, cs2) =>
              MatchObj pos (pos + S n) cs2 ::
              match s with
              | String a s' => finditer_aux p (Some a) s' n (S pos)
              | EmptyString => []
              end
          | _ =>
              match s with
              | String a s' => finditer_aux p (Some a) s' 0 (S pos)
              | EmptyString => []
              end
          end
      end
  end.

Definition finditer (p : pattern) (s : string) : list match_obj :=
  finditer_aux p None s 0 0.

(** [p.findall(s)] for a pattern with one group. *)
Definition findall1 (p : pattern) (s : string) : list string :=
  map (group_or_empty 1) (finditer p s).

(** [p.findall(s)] for a pattern with two groups. *)
Definition findall2 (p : pattern) (s : string) : list (string * string) :=
  map (fun m => (group_or_empty 1 m, group_or_empty 2 m)) (finditer p s).

(** [p.sub(repl, s)]: the text between the matches is kept and each
    match is replaced; [last] is the end of the previous match. *)
Fixpoint sub_build (repl : match_obj -> string) (s : string) (last : nat)
    (ms : list match_obj) : string :=
  match ms with
  | [] => Py.drop last s
  | m :: ms' =>
      Py.take (m_start m - last) (Py.drop last s) +:+ repl m +:+
      sub_build repl s (m_end m) ms'
  end.

Definition sub (p : pattern) (repl : match_obj -> string) (s : string)
    : string :=
  sub_build repl s 0 (finditer p s).

(** [p.split(s)]: the pieces between the matches, each followed by the
    groups of the match that ends it ([groups] lists their numbers). *)
Fixpoint split_build (groups : list nat) (s : string) (last : nat)
    (ms : list match_obj) : list string :=
  match ms with
  | [] => [Py.drop last s]
  | m :: ms' =>
      Py.take (m_start m - last) (Py.drop last s) ::
      map (fun g => group_or_empty g m) groups ++
      split_build groups s (m_end m) ms'
  end.

Definition split (p : pattern) (groups : list nat) (s : string)
    : list string :=
  split_build groups s 0 (finditer p s).

(** The expressions that capture nothing. *)
Fixpoint nogroups (r : regex) : bool :=
  match r with
  | RGroup _ _ => false
  | RSeq r1 r2 | RAlt r1 r2 => nogroups r1 && nogroups r2
  | RStar _ r' | RLookahead r' => nogroups r'
  | _ => true
  end.

(** What the matcher accepts, as a relation: [Matches ic r st st'] holds
    when [r] can take the matcher from position [st] to position [st'].
    A repetition makes progress at every round, an alternative may take
    either side, and a look-ahead keeps the position and takes the groups
    of the first way its body matches. *)
Inductive Matches (ic : bool) : regex -> mstate -> mstate -> Prop :=
| MClass c a s' pv cs :
    cls_match ic c a = true ->
    Matches ic (RClass c) (MState pv (String a s') cs) (MState (Some a) s' cs)
| MEmpty st : Matches ic REmpty st st
| MSeq r1 r2 st st1 st2 :
    Matches ic r1 st st1 -> Matches ic r2 st1 st2 ->
    Matches ic (RSeq r1 r2) st st2
| MAltL r1 r2 st st' : Matches ic r1 st st' -> Matches ic (RAlt r1 r2) st st'
| MAltR r1 r2 st st' : Matches ic r2 st st' -> Matches ic (RAlt r1 r2) st st'
| MStarStop g r st : Matches ic (RStar g r) st st
| MStarStep g r st st1 st2 :
    Matches ic r st st1 ->
    String.length (rest st1) < String.length (rest st) ->
    Matches ic (RStar g r) st1 st2 ->
    Matches ic (RStar g r) st st2
| MGroup n r st st1 :
    Matches ic r st st1 ->
    Matches ic (RGroup n r) st
      (MState (prev st1) (rest st1)
         ((n, Py.take (String.length (rest st) - String.length (rest st1))
                (rest st)) :: caps st1))
| MBol st : prev st = None -> Matches ic RBol st st
| MEol st :
    rest st = EmptyString \/ rest st = String "010" EmptyString ->
    Matches ic REol st st
| MLookbehind c a st :
    prev st = Some a -> cls_match ic c a = true ->
    Matches ic (RLookbehind c) st st
| MLookahead r st st1 :
    rmatch ic r st Some = Some st1 ->
    Matches ic (RLookahead r) st (MState (prev st) (rest st) (caps st1)).

End Re.

(** ** Shared data: dictionaries, documents, exceptions *)

(** A [dict] with string keys, in insertion order. *)
Definition dict (V : Type) : Type := list (string * V).

Fixpoint dict_get {V} (k : string) (d : dict V) : option V :=
  match d with
  | [] => None
  | (k', v) :: d' => if String.eqb k k' then Some v else dict_get k d'
  end.

(** [d[k] = v]: an existing key keeps its place, a new key goes last. *)
Fixpoint dict_set {V} (k : string) (v : V) (d : dict V) : dict V :=
  match d with
  | [] => [(k, v)]
  | (k', v') :: d' =>
      if String.eqb k k' then (k', v) :: d' else (k', v') :: dict_set k v d'
  end.

(** [d.update(e)] *)
Definition dict_update {V} (d e : dict V) : dict V :=
  fold_left (fun acc kv => dict_set (fst kv) (snd kv) acc) e d.

Definition dict_mem {V} (k : string) (d : dict V) : bool :=
  match dict_get k d with Some _ => true | None => false end.

(** The metadata mapping of a retrieved document, by the keys the code
    reads; [other_keys] tells whether the mapping has further keys (an
    empty mapping is falsy in Python). *)
Record Metadata : Type := {
  md_source : option string;
  md_document_type : option string;
  md_content_type : option string;
  md_has_price_info : option bool;
  md_price_data : option (dict string);
  md_other_keys : bool
}.

Record Document : Type := {
  page_content : string;
  metadata : Metadata
}.

Definition present {A} (o : option A) : bool :=
  match o with Some _ => true | None => false end.

(** Truth value of [doc.metadata]: the mapping is not empty. *)
Definition metadata_truthy (m : Metadata) : bool :=
  present (md_source m) || present (md_document_type m)
  || present (md_content_type m) || present (md_has_price_info m)
  || present (md_price_data m) || md_other_keys m.

(** The outcome of a call that may raise. *)
Inductive exn : Type := ValueError | TypeError.

Inductive result (A : Type) : Type :=
| Ok (a : A)
| Raise (e : exn).

Arguments Ok {A} a.
Arguments Raise {A} e.

Definition bind {A B} (r : result A) (f : A -> result B) : result B :=
  match r with
  | Ok a => f a
  | Raise e => Raise e
  end.

(** ** [pattern_matching.py] *)

Module pattern_matching.
Import Re.

Definition digit : regex := RClass CDigit.
Definition space : regex := RClass CSpace.
Definition spaces0 : regex := RStar true space.   (* \s* *)
Definition spaces1 : regex := plus true space.    (* \s+ *)

(** [(?:cost|price)[^\d]*?(\d+)], [IGNORECASE] *)
Definition PRICE_PATTERN : pattern :=
  Pattern
    (seq [alt [lit "cost"; lit "price"];
          RStar false (RClass (CNot CDigit));
          RGroup 1 (plus true digit)])
    true.

(** [([a-zA-Z\s]+)\s*(?:cost|price)[^\d]*?(\d+)], [IGNORECASE] *)
Definition TREATMENT_PRICE_PATTERN : pattern :=
  Pattern
    (seq [RGroup 1
            (plus true
               (RClass (COr (CRange "a" "z") (COr (CRange "A" "Z") CSpace))));
          spaces0;
          alt [lit "cost"; lit "price"];
          RStar false (RClass (CNot CDigit));
          RGroup 2 (plus true digit)])
    true.

(** [^\s*(.+?)\s*(?:BDT|Tk\.?|Taka)\s*$], [I] *)
Definition BDT_QUERY_PATTERN : pattern :=
  Pattern
    (seq [RBol; spaces0;
          RGroup 1 (plus false (RClass CAny));
          spaces0;
          alt [lit "BDT"; RSeq (lit "Tk") (opt (lit ".")); lit "Taka"];
          spaces0; REol])
    true.

(** [(?:cost|price|charge)[^\d]*(\d+)], [IGNORECASE] *)
Definition GENERAL_PRICE_PATTERN : pattern :=
  Pattern
    (seq [alt [lit "cost"; lit "price"; lit "charge"];
          RStar true (RClass (CNot CDigit));
          RGroup 1 (plus true digit)])
    true.

(** [(\d+)(?:\.00)?\s*(?:BDT|Tk\.?)] *)
Definition PRICE_FORMAT_PATTERN : pattern :=
  Pattern
    (seq [RGroup 1 (plus true digit);
          opt (lit ".00");
          spaces0;
          alt [lit "BDT"; RSeq (lit "Tk") (opt (lit "."))]])
    false.

(** [(?<=\S)(?=\d+\.00 BDT)] *)
Definition SPACE_BEFORE_PRICE_PATTERN : pattern :=
  Pattern
    (seq [RLookbehind (CNot CSpace);
          RLookahead (seq [plus true digit; lit ".00 BDT"])])
    false.

Definition PRICE_KEYWORDS : list string :=
  ["price"; "cost"; "fee"; "charge"; "payment"; "pay"; "expense"; "bill";
   "pricing"; "costs"; "fees"; "expensive"; "cheap"; "affordable";
   "how much"; "how many"; "bdt"; "taka"; "tk"].

(** [re.sub(r'[^\w\s]', '', treatment.lower())], then
    [re.sub(r'\s+', ' ', normalized).strip()]. *)
Definition normalize_treatment_name (treatment : string) : string :=
  let normalized :=
    sub (Pattern (RClass (CNot (COr CWord CSpace))) false)
        (fun _ => "") (Py.lower treatment) in
  let normalized :=
    Py.strip (sub (Pattern spaces1 false) (fun _ => " ") normalized) in
  normalized.

(** [n / d >= 0.7] for the sizes [n <= d] of two word sets.  The quotient
    of two integers is correctly rounded and [0.7] is the double nearest
    to seven tenths, so for [d] below [10^15] the comparison holds
    exactly when [7 * d <= 10 * n]. *)
Definition ratio_ge_07 (n d : nat) : bool := 7 * d <=? 10 * n.

Definition words_of (s : string) : gset string := list_to_set (Py.split_ws s).

Definition treatments_match (treatment1 treatment2 : string) : bool :=
  let norm1 := normalize_treatment_name treatment1 in
  let norm2 := normalize_treatment_name treatment2 in
  if String.eqb norm1 norm2 then true
  else if Py.contains norm1 norm2 || Py.contains norm2 norm1 then true
  else
    let words1 := words_of norm1 in
    let words2 := words_of norm2 in
    if bool_decide (words1 = ∅) || bool_decide (words2 = ∅) then false
    else
      let intersection := words1 ∩ words2 in
      let smaller_set_size := Nat.min (size words1) (size words2) in
      if smaller_set_size =? 0 then false
      else ratio_ge_07 (size intersection) smaller_set_size.

Definition is_price_query (query : string) : bool :=
  let query_lower := Py.lower query in
  existsb (fun keyword => Py.contains keyword query_lower) PRICE_KEYWORDS.

Definition found (p : pattern) (s : string) : bool :=
  present (search p s).

(** The four interrogative patterns of [is_direct_price_query]. *)
Definition direct_how_much_patterns : list pattern :=
  [ (* how\s+much\s+(?:does|is|for|will|would|should)? *)
    Pattern
      (seq [lit "how"; spaces1; lit "much"; spaces1;
            opt (alt [lit "does"; lit "is"; lit "for"; lit "will";
                      lit "would"; lit "should"])])
      false;
    (* what\s+(?:is|are)\s+the\s+(?:price|cost|fee|charge) *)
    Pattern
      (seq [lit "what"; spaces1; alt [lit "is"; lit "are"]; spaces1;
            lit "the"; spaces1;
            alt [lit "price"; lit "cost"; lit "fee"; lit "charge"]])
      false;
    (* (?:price|cost|fee|charge)\s+(?:of|for) *)
    Pattern
      (seq [alt [lit "price"; lit "cost"; lit "fee"; lit "charge"]; spaces1;
            alt [lit "of"; lit "for"]])
      false;
    (* how\s+(?:expensive|costly) *)
    Pattern
      (seq [lit "how"; spaces1; alt [lit "expensive"; lit "costly"]])
      false ].

Definition is_direct_price_query (text : string) : bool :=
  match text with
  | EmptyString => false
  | _ =>
      if present (match_ BDT_QUERY_PATTERN text) then true
      else
        let text_lower := Py.lower text in
        existsb (fun pattern => found pattern text_lower)
                direct_how_much_patterns
  end.

(** [(?:\?|$|in\s+(?:bdt|taka|tk))] *)
Definition name_end : regex :=
  alt [lit "?"; REol;
       seq [lit "in"; spaces1; alt [lit "bdt"; lit "taka"; lit "tk"]]].

(** [(?:a|an|the)?\s*(.+?)] *)
Definition article_and_name : regex :=
  seq [opt (alt [lit "a"; lit "an"; lit "the"]); spaces0;
       RGroup 1 (plus false (RClass CAny))].

(** The three interrogative patterns of [extract_treatment_from_query]. *)
Definition extract_how_much_patterns : list pattern :=
  [ (* how\s+much\s+(?:does|is|for|will|would|should)?\s+(?:a|an|the)?\s*(.+?)
       (?:\s+cost|\s+price|\s+charge|\s+fee)?(?:\?|$|in\s+(?:bdt|taka|tk)) *)
    Pattern
      (seq [lit "how"; spaces1; lit "much"; spaces1;
            opt (alt [lit "does"; lit "is"; lit "for"; lit "will";
                      lit "would"; lit "should"]);
            spaces1; article_and_name;
            opt (alt [RSeq spaces1 (lit "cost"); RSeq spaces1 (lit "price");
                      RSeq spaces1 (lit "charge"); RSeq spaces1 (lit "fee")]);
            name_end])
      false;
    (* what\s+(?:is|are)\s+the\s+(?:price|cost|fee|charge)(?:\s+of|\s+for)?\s+
       (?:a|an|the)?\s*(.+?)(?:\?|$|in\s+(?:bdt|taka|tk)) *)
    Pattern
      (seq [lit "what"; spaces1; alt [lit "is"; lit "are"]; spaces1;
            lit "the"; spaces1;
            alt [lit "price"; lit "cost"; lit "fee"; lit "charge"];
            opt (alt [RSeq spaces1 (lit "of"); RSeq spaces1 (lit "for")]);
            spaces1; article_and_name; name_end])
      false;
    (* (?:price|cost|fee|charge)\s+(?:of|for)\s+(?:a|an|the)?\s*(.+?)
       (?:\?|$|in\s+(?:bdt|taka|tk)) *)
    Pattern
      (seq [alt [lit "price"; lit "cost"; lit "fee"; lit "charge"]; spaces1;
            alt [lit "of"; lit "for"]; spaces1; article_and_name; name_end])
      false ].

(** The loop over the interrogative patterns: the first that is found
    gives the name. *)
Fixpoint first_capture (patterns : list pattern) (s : string)
    : option string :=
  match patterns with
  | [] => None
  | p :: rest =>
      match search p s with
      | Some m => Some (Py.strip (group_or_empty 1 m))
      | None => first_capture rest s
      end
  end.

Definition extract_treatment_from_query (query : string) : option string :=
  match match_ BDT_QUERY_PATTERN query with
  | Some bdt_match => Some (Py.strip (group_or_empty 1 bdt_match))
  | None => first_capture extract_how_much_patterns (Py.lower query)
  end.

End pattern_matching.

(** ** [text_processing.py] *)

Module text_processing.
Import Re.

(** The module takes its patterns from [pattern_matching]. *)
Definition PRICE_PATTERN : pattern := pattern_matching.PRICE_PATTERN.

Definition sentence_end : cls := COr (CLit ".") (COr (CLit "!") (CLit "?")).

(** [(?<=[.!?])\s+] *)
Definition SENTENCE_PATTERN : pattern :=
  Pattern (seq [RLookbehind sentence_end; pattern_matching.spaces1]) false.

Definition count_sentences (text : string) : nat :=
  length (finditer SENTENCE_PATTERN text).

(** [s.endswith(('.', '!', '?'))] *)
Definition ends_with_terminator (s : string) : bool :=
  Py.endswith "." s || Py.endswith "!" s || Py.endswith "?" s.

Definition ensure_sentence_limit (text : string) (max_sentences : Z)
    : string :=
  let sentences := split SENTENCE_PATTERN [] (Py.strip text) in
  if (Z.of_nat (length sentences) <=? max_sentences)%Z then text
  else
    let limited_text := Py.join ". " (Py.slice_to max_sentences sentences) in
    if negb (ends_with_terminator limited_text)
    then limited_text +:+ "."
    else limited_text.

(** [treatment, price = item] for a string [item]: the string is
    iterated character by character and must have exactly two. *)
Definition unpack_pair (item : string) : result (string * string) :=
  match item with
  | String a (String b EmptyString) =>
      Ok (String a EmptyString, String b EmptyString)
  | _ => Raise ValueError
  end.

(** The loop over [price_matches]. *)
Fixpoint scan_matches (price_matches : list string) (price_data : dict string)
    : result (dict string) :=
  match price_matches with
  | [] => Ok price_data
  | item :: rest =>
      bind (unpack_pair item) (fun tp =>
        let treatment := Py.strip (fst tp) in
        let price := snd tp in
        match treatment with
        | EmptyString => scan_matches rest price_data
        | _ =>
            if negb (Py.isdigit treatment)
            then scan_matches rest
                   (dict_set (Py.lower treatment) price price_data)
            else scan_matches rest price_data
        end)
  end.

(** [doc.metadata.get('has_price_info') and 'price_data' in doc.metadata] *)
Definition merge_metadata (doc : Document) (price_data : dict string)
    : dict string :=
  match md_has_price_info (metadata doc), md_price_data (metadata doc) with
  | Some true, Some pd => dict_update price_data pd
  | _, _ => price_data
  end.

Fixpoint extract_price_info_from (docs : list Document)
    (price_data : dict string) : result (dict string) :=
  match docs with
  | [] => Ok price_data
  | doc :: rest =>
      let price_data := merge_metadata doc price_data in
      let content := page_content doc in
      let price_matches := findall1 PRICE_PATTERN content in
      bind (scan_matches price_matches price_data)
           (extract_price_info_from rest)
  end.

Definition extract_price_info (docs : list Document) : result (dict string) :=
  extract_price_info_from docs [].


(** [extract_price_from_text]: the treatment and the price of the first
    match of [TREATMENT_PRICE_PATTERN], or a pair of [None]. *)
Definition extract_price_from_text (text : string)
    : option string * option string :=
  match search pattern_matching.TREATMENT_PRICE_PATTERN text with
  | Some m =>
      let treatment := Py.lower (Py.strip (group_or_empty 1 m)) in
      let price := Py.strip (group_or_empty 2 m) in
      (Some treatment, Some price)
  | None => (None, None)
  end.

End text_processing.

(** ** [document_utils.py] *)

Module document_utils.
Import Re.

Definition TREATMENT_PRICE_PATTERN := pattern_matching.TREATMENT_PRICE_PATTERN.
Definition GENERAL_PRICE_PATTERN := pattern_matching.GENERAL_PRICE_PATTERN.
Definition PRICE_PATTERN := pattern_matching.PRICE_PATTERN.

Definition mem_str (w : string) (l : list string) : bool :=
  existsb (String.eqb w) l.

(** Step 2 of the cascade: the loop over the name and price pairs. *)
Definition record_pairs (matches : list (string * string))
    (price_info : dict string) : dict string :=
  fold_left
    (fun acc m =>
       let treatment := Py.lower (Py.strip (fst m)) in
       let price := Py.strip (snd m) in
       match treatment with
       | EmptyString => acc
       | _ =>
           if negb (Py.isdigit treatment) && (2 <? String.length treatment)
           then dict_set treatment price acc
           else acc
       end)
    matches price_info.

Definition line_stoplist : list string :=
  ["price"; "cost"; "bdt"; "taka"; "charge"; "treatment"; "service";
   "procedure"].

(** Step 3: the loop over the lines of the content. *)
Definition record_lines (price_matches : list string) (content : string)
    (price_info : dict string) : dict string :=
  fold_left
    (fun acc line =>
       let line := Py.lower (Py.strip line) in
       if existsb (fun price => Py.contains price line) price_matches then
         let words :=
           List.filter (fun w => (3 <? String.length w) && negb (Py.isdigit w)
                            && negb (mem_str w line_stoplist))
                  (Py.split_ws line) in
         match words with
         | [] => acc
         | _ =>
             let treatment := Py.join " " words in
             match search PRICE_PATTERN line with
             | Some price_match =>
                 dict_set treatment (group_or_empty 1 price_match) acc
             | None => acc
             end
         end
       else acc)
    (Py.split_char "010"%char content) price_info.

Definition word_stoplist : list string :=
  ["price"; "cost"; "bdt"; "taka"; "charge"].

(** Step 4: the first long word that is not a stop word names the
    treatment; the loop breaks there whether or not the word is new. *)
Fixpoint record_first_word (words : list string) (price : string)
    (price_info : dict string) : dict string :=
  match words with
  | [] => price_info
  | word :: rest =>
      if (3 <? String.length word) && negb (mem_str word word_stoplist) then
        if negb (dict_mem word price_info)
        then dict_set word price price_info
        else price_info
      else record_first_word rest price price_info
  end.

Definition general_fallback (content : string) (price_info : dict string)
    : dict string :=
  match search GENERAL_PRICE_PATTERN content with
  | Some m =>
      let price := Py.strip (group_or_empty 1 m) in
      record_first_word (Py.split_ws (Py.lower content)) price price_info
  | None => price_info
  end.

(** One round of the loop over the documents. *)
Definition extract_from_doc (price_info : dict string) (doc : Document)
    : dict string :=
  let content := page_content doc in
  match
    (if metadata_truthy (metadata doc) then
       match md_has_price_info (metadata doc), md_price_data (metadata doc) with
       | Some true, Some pd => Some pd
       | _, _ => None
       end
     else None)
  with
  | Some pd => dict_update price_info pd
  | None =>
      match findall2 TREATMENT_PRICE_PATTERN content with
      | (_ :: _) as matches => record_pairs matches price_info
      | [] =>
          let price_matches := findall1 PRICE_PATTERN content in
          let price_info :=
            match price_matches with
            | _ :: _ => record_lines price_matches content price_info
            | [] => price_info
            end in
          general_fallback content price_info
      end
  end.

Definition extract_price_info (docs : list Document) : dict string :=
  fold_left extract_from_doc docs [].

(** [(?:price|cost|bdt|taka|tk)] *)
Definition price_word : pattern :=
  Pattern (alt [lit "price"; lit "cost"; lit "bdt"; lit "taka"; lit "tk"])
          false.

(** [\d+(?:\.\d+)?] *)
Definition number : pattern :=
  Pattern (seq [plus true pattern_matching.digit;
                opt (RSeq (lit ".") (plus true pattern_matching.digit))])
          false.

Definition has_price (doc : Document) : bool :=
  let content := Py.strip (page_content doc) in
  pattern_matching.found price_word (Py.lower content)
  || pattern_matching.found number content.

Definition content_marker : string := "... [content truncated]".
Definition context_marker : string := "... [additional context truncated]".
Definition max_context_length : nat := 4000.

(** The excerpt of one document. *)
Definition excerpt (doc : Document) : string :=
  let content := Py.strip (page_content doc) in
  if 500 <? String.length content
  then Py.take 500 content +:+ content_marker
  else content.

Definition metadata_str (doc : Document) : string :=
  if metadata_truthy (metadata doc) then
    let source :=
      match md_source (metadata doc) with Some s => s | None => "Unknown" end in
    let doc_type :=
      match md_document_type (metadata doc) with
      | Some t => t
      | None => EmptyString
      end in
    " (Source: " +:+ source +:+
    match doc_type with
    | EmptyString => EmptyString
    | _ => ", Type: " +:+ doc_type
    end +:+ ")"
  else EmptyString.

(** The labelled parts of a list of documents, numbered from [i + 1]. *)
Fixpoint labelled (label : string) (i : nat) (docs : list Document)
    : list string :=
  match docs with
  | [] => []
  | doc :: rest =>
      ("[" +:+ label +:+ " " +:+ Py.str_of_nat (i + 1) +:+ "]" +:+
       metadata_str doc +:+ ": " +:+ excerpt doc)
      :: labelled label (S i) rest
  end.

(** The joined parts, before the final length check. *)
Definition joined_context (docs : list Document) (doc_type : option string)
    : string :=
  let header :=
    match doc_type with
    | Some t =>
        match t with
        | EmptyString => []
        | _ => ["--- " +:+ t +:+ " ---"]
        end
    | None => []
    end in
  let price_docs := List.filter has_price docs in
  let other_docs := List.filter (fun d => negb (has_price d)) docs in
  let max_price_docs := Nat.min 3 (length price_docs) in
  let max_other_docs := Nat.min 2 (length other_docs) in
  let price_docs := firstn max_price_docs price_docs in
  let other_docs := firstn max_other_docs other_docs in
  Py.join (String "010" (String "010" EmptyString))
    (header ++ labelled "PRICE INFO" 0 price_docs
            ++ labelled "Section" 0 other_docs).

Definition format_retrieved_context (docs : list Document)
    (doc_type : option string) : string :=
  match docs with
  | [] => EmptyString
  | _ =>
      let result := joined_context docs doc_type in
      if max_context_length <? String.length result
      then Py.take max_context_length result +:+ context_marker
      else result
  end.

Section Scores.

(** Similarity scores are floating-point numbers; all the function does
    with them is the comparison [score < threshold], taken here as a
    parameter. *)
Variable score : Type.
Variable score_lt : score -> score -> bool.

Definition filter_documents_by_score
    (docs_with_scores : list (Document * score)) (threshold : score)
    (is_price_query : bool) : list Document :=
  if is_price_query then
    map (fun ds => fst ds) docs_with_scores
  else
    fold_left
      (fun filtered_docs ds =>
         if score_lt (snd ds) threshold
         then filtered_docs ++ [fst ds]
         else filtered_docs)
      docs_with_scores [].

End Scores.


(** [query.upper().endswith("BDT")] *)
Definition ends_with_bdt (query : string) : bool :=
  Py.codes_endswith (Py.codes "BDT") (Py.upper query).

Definition enhance_query (query : string) (is_price_query : bool) : string :=
  let enhanced_query := query in
  let enhanced_query :=
    if is_price_query
       && negb (existsb (fun term => Py.contains term (Py.lower query))
                        ["price"; "cost"])
    then enhanced_query +:+ " price cost"
    else enhanced_query in
  if ends_with_bdt query then
    let treatment_name := Py.strip (Py.drop_last 3 query) in
    treatment_name +:+ " treatment procedure price cost"
  else enhanced_query.

End document_utils.

(** ** [response_formatter.py] *)

Module response_formatter.
Import Re.

Definition PRICE_FORMAT_PATTERN := pattern_matching.PRICE_FORMAT_PATTERN.
Definition SPACE_BEFORE_PRICE_PATTERN :=
  pattern_matching.SPACE_BEFORE_PRICE_PATTERN.

(** [RESPONSE_VARIATIONS["greeting"]] *)
Definition greeting : list string :=
  ["Hello! I'm Local RAG Chatbot, your healthcare assistant. How can I help you today?";
   "Hi there! I'm Local RAG Chatbot, ready to assist with your healthcare questions. What can I help you with?";
   "Welcome! I'm Local RAG Chatbot, your medical information assistant. How may I assist you today?";
   "Greetings! I'm Local RAG Chatbot, here to help with your healthcare inquiries. What would you like to know?"].

Definition apology : string :=
  "I apologize, but I couldn't find any relevant information for your query.".

(** [random.choice(seq)]: [rnd] is the number drawn, reduced to an index
    of the sequence. *)
Definition choice (rnd : nat) (seq : list string) : string :=
  nth (rnd mod length seq) seq EmptyString.

(** The sentence limit of [format_response]: applied when [max_sentences]
    is given and not zero. *)
Definition limit_text (text : string) (max_sentences : option Z) : string :=
  match max_sentences with
  | None => text
  | Some m =>
      if (m =? 0)%Z then text
      else
        let sentences := Py.split_char "." text in
        if (m <? Z.of_nat (length sentences))%Z
        then Py.join ". " (Py.slice_to m sentences) +:+ "."
        else text
  end.

(** [text] is [None] for a null argument. *)
Definition format_response (rnd : nat) (text : option string)
    (max_sentences : option Z) : string :=
  match text with
  | None => apology
  | Some EmptyString => apology
  | Some text =>
      let intro := choice rnd greeting in
      let text := limit_text text max_sentences in
      intro +:+ " " +:+ text
  end.

Definition add_price_info (response treatment price : string) : string :=
  let price_str := price +:+ ".00 BDT" in
  if Py.contains price_str response then response
  else
    let trailing :=
      if String.length response <? 80 then
        response +:+ " The cost for " +:+ treatment +:+ " is " +:+
        price_str +:+ "."
      else if Py.endswith "." response then
        response +:+ " The cost for " +:+ treatment +:+ " is " +:+
        price_str +:+ "."
      else
        response +:+ ". The cost for " +:+ treatment +:+ " is " +:+
        price_str +:+ "." in
    if Py.contains (Py.lower treatment) (Py.lower response) then
      (* re.compile(re.escape(treatment), re.IGNORECASE) *)
      match finditer (Pattern (lit treatment) true) response with
      | m :: _ =>
          let insert_pos := m_end m in
          Py.take insert_pos response +:+ " costs " +:+ price_str +:+
          Py.drop insert_pos response
      | [] => trailing
      end
    else trailing.

(** The loop looking for the first treatment mentioned in the response. *)
Fixpoint best_match (items : dict string) (modified_response : string)
    : option (string * string) :=
  match items with
  | [] => None
  | (item, price) :: rest =>
      if Py.contains (Py.lower item) (Py.lower modified_response)
      then Some (item, price)
      else best_match rest modified_response
  end.

(** [price_info] is [None] for the default argument.  No step of the
    guarded block raises on strings, so the handler is never entered. *)
Definition format_price_response (response : string)
    (price_info : option (dict string)) : string :=
  match price_info with
  | None => response
  | Some [] => response
  | Some price_info =>
      let modified_response := Py.replace " BDT" ".00 BDT" response in
      let modified_response :=
        sub SPACE_BEFORE_PRICE_PATTERN (fun _ => " ") modified_response in
      let has_price :=
        present (search PRICE_FORMAT_PATTERN modified_response) in
      if negb has_price then
        match best_match price_info modified_response with
        | Some (item, price) => add_price_info modified_response item price
        | None => modified_response
        end
      else modified_response
  end.


Definition RESPONSE_VARIATIONS : dict (list string) :=
  [("uncertainty",
    ["I don't have enough information to answer that question accurately. Could you try asking something else?";
     "I'm unable to find information about that in my knowledge base. Could you try rephrasing your question?";
     "I don't have specific data on that in my database. Is there something else I can help you with?";
     "I don't have sufficient information to provide an accurate answer to that question. Would you like to ask about something else?"]);
   ("pricing_unknown",
    ["I don't have pricing information for that specific treatment or service in my database. Would you like me to help you with something else?";
     "I couldn't find the cost information for that specific service. Prices can vary by healthcare provider, so it might be best to contact them directly.";
     "I don't have that pricing data in my records. For accurate pricing, I recommend contacting your healthcare provider directly.";
     "I don't have the specific cost information for that in my database. Healthcare pricing can vary based on many factors."]);
   ("direct_price_response",
    ["The cost for {treatment} is {price}.00 BDT based on our healthcare provider database.";
     "{treatment} costs {price}.00 BDT according to our current pricing information.";
     "The price for {treatment} is {price}.00 BDT as per our healthcare records.";
     "Based on our data, {treatment} costs {price}.00 BDT."]);
   ("price_disclaimer",
    [" Actual prices may vary depending on the healthcare facility and specific circumstances.";
     " Please note that this is an approximate cost and may vary between providers.";
     " Keep in mind that final costs may differ based on your specific situation and the healthcare provider.";
     " This is an estimated cost and actual prices might vary."]);
   ("greeting", greeting);
   ("llm_error",
    ["I'm having trouble processing your question at the moment. Our systems might be experiencing high demand. Could you try again in a moment?";
     "I apologize, but my language model is having difficulty generating a response. Could you try simplifying your question?";
     "I'm experiencing some technical difficulties with generating a response. Would you mind rephrasing your question?";
     "It seems I'm having trouble formulating a proper response to your query. Can you try asking in a different way?"]);
   ("search_error",
    ["I'm having difficulty searching my knowledge base right now. This could be a temporary issue. Could you try again shortly?";
     "I can't seem to retrieve the information you're looking for at the moment. Would you mind trying again?";
     "I'm experiencing issues accessing my medical database. Please try your question again in a moment.";
     "Something went wrong when searching for information. This is likely a temporary issue. Could you try once more?"]);
   ("connection_error",
    ["I'm having trouble connecting to my knowledge sources at the moment. This might be a temporary network issue.";
     "There seems to be a connection problem with my databases. Please try your question again in a moment.";
     "I can't reach some of my information sources right now. This is likely a temporary issue that will resolve shortly.";
     "I'm experiencing some connectivity issues. Could you try your question again? If the problem persists, it might be resolved soon."]);
   ("timeout_error",
    ["Your request is taking longer than expected to process. This might be due to high demand or the complexity of your question.";
     "I'm having trouble responding in a timely manner. Could you try a simpler question or try again later?";
     "It's taking me longer than usual to find an answer. This could be due to system load. Please try again shortly.";
     "I wasn't able to complete your request in time. Our systems might be busy at the moment. Please try again."]);
   ("general_error",
    ["I encountered an unexpected issue while processing your request. Could you try asking in a different way?";
     "Something went wrong on my end. This is likely a temporary issue. Could you try your question again?";
     "I apologize, but I ran into a problem while handling your question. Would you mind rephrasing it?";
     "I hit a snag while working on your request. This is probably temporary. Could you try again?"])].

(** [RESPONSE_VARIATIONS[key]] for a key of the table. *)
Definition variations (key : string) : list string :=
  match dict_get key RESPONSE_VARIATIONS with
  | Some phrases => phrases
  | None => []
  end.

Definition format_error_response (rnd : nat) (error error_type : string)
    : string :=
  if dict_mem error_type RESPONSE_VARIATIONS
  then choice rnd (variations error_type)
  else choice rnd (variations "general_error").

Definition get_error_response (rnd : nat) (error_type : string) : string :=
  if dict_mem error_type RESPONSE_VARIATIONS
  then choice rnd (variations error_type)
  else choice rnd (variations "uncertainty").

Definition starters : list string :=
  ["Based on my information, "; "According to my database, ";
   "From what I can tell, "; "As per my knowledge, "].

Definition enders : list string :=
  [" Hope that helps!"; " Does that answer your question?";
   " Is there anything else you'd like to know?";
   " Let me know if you need any clarification."].

(** The outcome of a call that indexes a string. *)
Inductive outcome (A : Type) : Type :=
| Returned (a : A)
| IndexError.

Arguments Returned {A} a.
Arguments IndexError {A}.

(** [add_human_touch]: [below_03] and [below_02] tell whether the two
    numbers drawn by [random.random()] fell below 0.3 and 0.2, [rnd1] and
    [rnd2] are the draws of the two [random.choice] calls.  The first
    character is taken with [response[0]], which raises on the empty
    string. *)
Definition add_human_touch (below_03 : bool) (rnd1 : nat) (below_02 : bool)
    (rnd2 : nat) (response : string) : outcome string :=
  let started :=
    if below_03 then
      match response with
      | EmptyString => IndexError
      | String first tail =>
          Returned (choice rnd1 starters +:+
                    String (Py.lower_char first) EmptyString +:+ tail)
      end
    else Returned response in
  match started with
  | IndexError => IndexError
  | Returned response =>
      if below_02 && negb (Py.endswith "?" response)
         && negb (Py.contains "let me know" (Py.lower response))
      then Returned (response +:+ choice rnd2 enders)
      else Returned response
  end.

End response_formatter.

(** ** [utils.py]: the older module with the same function names *)

Module utils.
Import Re.

Definition name_char : cls :=
  COr (CRange "A" "Z")
   (COr (CRange "a" "z")
     (COr CSpace
       (COr (CLit "-")
         (COr (CLit ",") (COr (CLit "/") (COr (CLit "(") (CLit ")"))))))).

(** [\d+(?:\.\d+)?] *)
Definition decimal : regex :=
  seq [plus true pattern_matching.digit;
       opt (RSeq (lit ".") (plus true pattern_matching.digit))].

(** [([A-Za-z\s\-,/\(\)]+)\s+(\d+(?:\.\d+)?)\s*(?:BDT|Tk\.?)] *)
Definition PRICE_PATTERN : pattern :=
  Pattern
    (seq [RGroup 1 (plus true (RClass name_char));
          pattern_matching.spaces1;
          RGroup 2 decimal;
          pattern_matching.spaces0;
          alt [lit "BDT"; RSeq (lit "Tk") (opt (lit "."))]])
    false.

Definition PRICE_FORMAT_PATTERN := pattern_matching.PRICE_FORMAT_PATTERN.
Definition SPACE_BEFORE_PRICE_PATTERN :=
  pattern_matching.SPACE_BEFORE_PRICE_PATTERN.

(** [^\s*(.+?)\s*BDT\s*$], [I] *)
Definition BDT_QUERY_PATTERN : pattern :=
  Pattern
    (seq [RBol; pattern_matching.spaces0;
          RGroup 1 (plus false (RClass CAny));
          pattern_matching.spaces0; lit "BDT";
          pattern_matching.spaces0; REol])
    true.

(** [re.sub(r'[^a-z0-9]', '', name.lower())] *)
Definition normalize_treatment_name (name : string) : string :=
  sub (Pattern (RClass (CNot (COr (CRange "a" "z") (CRange "0" "9")))) false)
      (fun _ => "") (Py.lower name).

(** [n / d > 0.6] on set sizes, exact for the same reason as
    [pattern_matching.ratio_ge_07]. *)
Definition ratio_gt_06 (n d : nat) : bool := 6 * d <? 10 * n.

Definition treatments_match (query treatment : string) : bool :=
  let query_norm := normalize_treatment_name query in
  let treatment_norm := normalize_treatment_name treatment in
  if String.eqb query_norm treatment_norm then true
  else if Py.contains query_norm treatment_norm
          || Py.contains treatment_norm query_norm then true
  else
    let query_words := pattern_matching.words_of query_norm in
    let treatment_words := pattern_matching.words_of treatment_norm in
    let common_words := query_words ∩ treatment_words in
    negb (bool_decide (common_words = ∅))
    && ratio_gt_06 (size common_words)
         (Nat.max (size query_words) (size treatment_words)).

Definition is_price_query (query : string) : bool :=
  let query_lower := Py.lower query in
  existsb (fun word => Py.contains word query_lower)
    ["price"; "cost"; "how much"; "fee"; "charge"; "payment"; "rate";
     "expense"].

Definition is_direct_price_query (query : string) : bool :=
  present (match_ BDT_QUERY_PATTERN query).

Definition extract_treatment_from_query (query : string) : option string :=
  match match_ BDT_QUERY_PATTERN query with
  | Some m => Some (Py.strip (group_or_empty 1 m))
  | None => None
  end.

(** The loop over the name and price pairs found in the content. *)
Definition scan_matches (price_matches : list (string * string))
    (price_data : dict string) : dict string :=
  fold_left
    (fun acc tp =>
       let treatment := Py.strip (fst tp) in
       match treatment with
       | EmptyString => acc
       | _ =>
           if negb (Py.isdigit treatment)
           then dict_set (Py.lower treatment) (snd tp) acc
           else acc
       end)
    price_matches price_data.

Definition extract_price_info (docs : list Document) : dict string :=
  fold_left
    (fun price_data doc =>
       let price_data := text_processing.merge_metadata doc price_data in
       scan_matches (findall2 PRICE_PATTERN (page_content doc)) price_data)
    docs [].

(** [PRICE_FORMAT_PATTERN.sub(r'\1.00 BDT', response)], the space fix,
    and the removal of hash signs. *)
Definition format_price_response (response : string)
    (price_info : option (dict string)) : string :=
  let response :=
    sub PRICE_FORMAT_PATTERN
        (fun m => group_or_empty 1 m +:+ ".00 BDT") response in
  let response := sub SPACE_BEFORE_PRICE_PATTERN (fun _ => " ") response in
  Py.replace "#" "" response.

Definition is_terminator (s : string) : bool :=
  String.eqb s "." || String.eqb s "!" || String.eqb s "?".

(** The [while] loop of [ensure_sentence_limit] over the pieces of
    [re.split(r'([.!?])\s+', text)]; the index [i] is the head of the
    list. *)
Fixpoint complete_sentences (sentences : list string) (sentence_count : nat)
    (max_sentences : Z) : list string :=
  match sentences with
  | [] => []
  | s :: rest =>
      if (Z.of_nat sentence_count <? max_sentences)%Z then
        let alone :=
          fun (k : list string -> list string) =>
            match s with
            | EmptyString => k []
            | _ =>
                if is_terminator s then k []
                else if negb (text_processing.ends_with_terminator (Py.strip s))
                then k [s +:+ "."]
                else k [s]
            end in
        match rest with
        | t :: rest' =>
            if is_terminator t then
              (s +:+ t) :: complete_sentences rest' (S sentence_count)
                             max_sentences
            else
              alone (fun kept =>
                kept ++ complete_sentences rest
                          (sentence_count + length kept) max_sentences)
        | [] => alone (fun kept => kept)
        end
      else []
  end.

Definition ensure_sentence_limit (text : string) (max_sentences : Z)
    : string :=
  let sentences :=
    split (Pattern (seq [RGroup 1 (RClass text_processing.sentence_end);
                         pattern_matching.spaces1]) false)
          [1] text in
  Py.join " " (complete_sentences sentences 0 max_sentences).


(** [^\d+\s+([A-Za-z0-9\s\-,/\(\)]+?)\s+BDT\s+(\d+(?:\.\d+)?)], [I] *)
Definition TREATMENT_PRICE_PATTERN : pattern :=
  Pattern
    (seq [RBol; plus true pattern_matching.digit; pattern_matching.spaces1;
          RGroup 1 (plus false (RClass (COr (CRange "0" "9") name_char)));
          pattern_matching.spaces1; lit "BDT"; pattern_matching.spaces1;
          RGroup 2 decimal])
    true.

Definition extract_price_from_text (text : string)
    : option string * option string :=
  match search TREATMENT_PRICE_PATTERN text with
  | Some m =>
      let treatment := Py.lower (Py.strip (group_or_empty 1 m)) in
      let price := Py.strip (group_or_empty 2 m) in
      (Some treatment, Some price)
  | None => (None, None)
  end.

Definition RESPONSE_VARIATIONS : dict (list string) :=
  [("uncertainty",
    ["I don't have information about that in my database. I'd recommend consulting with a healthcare professional for personalized advice.";
     "That's beyond the scope of my current knowledge. Please consult with a qualified healthcare provider for specific guidance.";
     "I don't have details on that in my records. It would be best to speak with a healthcare professional for accurate information.";
     "I'm not able to provide information on that topic. I'd suggest reaching out to a medical professional for assistance."]);
   ("pricing_unknown",
    ["I don't have pricing information about that in my database. Please contact the relevant healthcare facility directly for current pricing.";
     "I don't have that specific pricing information available. For the most up-to-date rates, I'd recommend contacting the healthcare provider directly.";
     "That pricing information isn't in my database. You'll need to check with the healthcare facility for their current rates.";
     "I don't have access to that pricing data. For accurate cost information, please reach out to the healthcare provider directly."]);
   ("transitions",
    ["Based on the information I have, ";
     "According to my database, ";
     "From what I understand, ";
     "The information I have indicates that ";
     "My records show that "]);
   ("acknowledgments",
    ["I see you're asking about ";
     "You're interested in ";
     "Regarding your question about ";
     "Concerning ";
     "About your inquiry on "])].

Definition variations (key : string) : list string :=
  match dict_get key RESPONSE_VARIATIONS with
  | Some phrases => phrases
  | None => []
  end.

(** The loop over a one-phrase list: the phrase, when present, is
    replaced everywhere by one drawn variation. *)
Definition replace_stock (phrase : string) (variation : string)
    (response : string) : string :=
  if Py.contains phrase response
  then Py.replace phrase variation response
  else response.

(** [add_human_touch] of this module; the drawn numbers are arguments as
    in [response_formatter.add_human_touch]. *)
Definition add_human_touch (below_03 : bool) (rnd1 rnd2 rnd3 : nat)
    (response : string) : response_formatter.outcome string :=
  let response := Py.replace "#" "" response in
  let started :=
    if below_03
       && negb (existsb (fun phrase => Py.startswith phrase response)
                        (variations "transitions"
                         ++ variations "acknowledgments"))
    then
      match response with
      | EmptyString => response_formatter.IndexError
      | String first tail =>
          response_formatter.Returned
            (response_formatter.choice rnd1 (variations "transitions") +:+
             String (Py.lower_char first) EmptyString +:+ tail)
      end
    else response_formatter.Returned response in
  match started with
  | response_formatter.IndexError => response_formatter.IndexError
  | response_formatter.Returned response =>
      let response :=
        replace_stock "I don't have information about that in my database"
          (response_formatter.choice rnd2 (variations "uncertainty"))
          response in
      let response :=
        replace_stock
          "I don't have pricing information about that in my database"
          (response_formatter.choice rnd3 (variations "pricing_unknown"))
          response in
      response_formatter.Returned response
  end.

End utils.

(** ** [app.py]: the helper that recognises direct price queries *)

Module app.

Definition is_bdt_price_query (query : string) : bool :=
  document_utils.ends_with_bdt query
  || pattern_matching.is_direct_price_query query.

End app.

(** ** The matching rule as the specification words it *)

Module Spec.

(** [a] occurs in [b]. *)
Definition is_substring (a b : string) : Prop :=
  exists pre post, b = pre +:+ a +:+ post.

(** [|intersection| / min(|wordsA|, |wordsB|)] as a rational number. *)
Definition overlap (words_a words_b : gset string) : Q :=
  (inject_Z (Z.of_nat (size (words_a ∩ words_b)))
   / inject_Z (Z.of_nat (Nat.min (size words_a) (size words_b))))%Q.

(** Equal normalized forms, or one inside the other, or two non-empty
    word sets with an overlap of at least seven tenths. *)
Definition matches (a b : string) : Prop :=
  let norm_a := pattern_matching.normalize_treatment_name a in
  let norm_b := pattern_matching.normalize_treatment_name b in
  norm_a = norm_b
  \/ is_substring norm_a norm_b
  \/ is_substring norm_b norm_a
  \/ (pattern_matching.words_of norm_a <> ∅
      /\ pattern_matching.words_of norm_b <> ∅
      /\ (7 # 10 <= overlap (pattern_matching.words_of norm_a)
                            (pattern_matching.words_of norm_b))%Q).

End Spec.

(** ** Documents used in the examples *)

Definition no_metadata : Metadata :=
  {| md_source := None; md_document_type := None; md_content_type := None;
     md_has_price_info := None; md_price_data := None;
     md_other_keys := false |}.

Definition price_500_doc : Document :=
  {| page_content := "price 500"; metadata := no_metadata |}.

(** A document carrying its price in the metadata, with another price in
    its text. *)
Definition xray_doc : Document :=
  {| page_content := "Scan 700 BDT";
     metadata := {| md_source := Some "prices.pdf"; md_document_type := None;
                    md_content_type := None; md_has_price_info := Some true;
                    md_price_data := Some [("x-ray", "500")];
                    md_other_keys := false |} |}.

(** A short document whose source name has four thousand characters. *)
Definition long_source_doc : Document :=
  {| page_content := "hello";
     metadata := {| md_source := Some (Py.repeat_char "s" 4000);
                    md_document_type := None; md_content_type := None;
                    md_has_price_info := None; md_price_data := None;
                    md_other_keys := false |} |}.

(** Five documents of six hundred characters each, three of them with a
    digit, all from a source whose name has three hundred characters. *)
Definition long_path : string := Py.repeat_char "p" 300.

Definition big_doc (first : ascii) : Document :=
  {| page_content := String first (Py.repeat_char "x" 599);
     metadata := {| md_source := Some long_path;
                    md_document_type := None; md_content_type := None;
                    md_has_price_info := None; md_price_data := None;
                    md_other_keys := false |} |}.

Definition five_big_docs : list Document :=
  [big_doc "7"; big_doc "a"; big_doc "8"; big_doc "b"; big_doc "9"].

(** ** Functions and predicates used in the statements *)

(** Not the hash sign. *)
Definition not_hash (c : ascii) : bool := negb (Ascii.eqb c "#").


(** A lower-case letter of the basic alphabet or a decimal digit. *)
Definition lower_alnum (c : ascii) : bool :=
  Py.between 97 122 (Py.code c) || Py.between 48 57 (Py.code c).

(** A word character or a white-space character. *)
Definition word_or_space (c : ascii) : bool := Py.isword c || Py.isspace c.

(** A character that [lower] leaves as it is. *)
Definition lowered (c : ascii) : bool := Ascii.eqb (Py.lower_char c) c.

(** The characters of [s] that pass the test [P], in order. *)
Fixpoint keep_chars (P : ascii -> bool) (s : string) : string :=
  match s with
  | EmptyString => EmptyString
  | String c s' => if P c then String c (keep_chars P s') else keep_chars P s'
  end.

(** [s] with every run of white space replaced by one space; [in_run]
    tells that the character before was white space. *)
Fixpoint collapse_ws (in_run : bool) (s : string) : string :=
  match s with
  | EmptyString => EmptyString
  | String c s' =>
      if Py.isspace c then
        if in_run then collapse_ws true s'
        else String " " (collapse_ws true s')
      else String c (collapse_ws false s')
  end.

(** Every white-space character of [s] is a space and no two of them
    are adjacent; [after_space] tells that the character before was
    one. *)
Fixpoint single_spaced (after_space : bool) (s : string) : bool :=
  match s with
  | EmptyString => true
  | String c s' =>
      if Py.isspace c then
        Ascii.eqb c " " && negb after_space && single_spaced true s'
      else single_spaced false s'
  end.

(** [s] does not start with white space. *)
Definition no_leading_space (s : string) : Prop :=
  match s with
  | EmptyString => True
  | String c _ => Py.isspace c = false
  end.

(** [s] has a decimal digit. *)
Definition has_digit (s : string) : bool :=
  negb (Py.all_chars (fun c => negb (Py.isdecimal c)) s).

(** The character before the position reached by passing over [s],
    when [pv] was the character before [s]. *)
Fixpoint last_char (pv : option ascii) (s : string) : option ascii :=
  match s with
  | EmptyString => pv
  | String c s' => last_char (Some c) s'
  end.

(** The groups in [new] are groups of [old] or parts of [text]. *)
Definition caps_within (old : list (nat * string)) (text : string)
    (new : list (nat * string)) : Prop :=
  forall n t, In (n, t) new -> In (n, t) old \/ Spec.is_substring t text.

(** A matched price that the loop of [text_processing.extract_price_info]
    can unpack: a string of exactly two characters. *)
Definition two_long (item : string) : bool := String.length item =? 2.

(** Every price found in the content of [doc] has two characters. *)
Definition lengths_ok (doc : Document) : bool :=
  forallb two_long
    (Re.findall1 text_processing.PRICE_PATTERN (page_content doc)).


(** * Properties *)

(** ** Lengths, prefixes and suffixes of strings *)

#[local] Arguments String.append : simpl nomatch.

Lemma str_length_app (a b : string) :
  String.length (a +:+ b) = String.length a + String.length b.
Proof.
  induction a as [|c a IH]; simpl; [reflexivity | now rewrite IH].
Qed.

Lemma str_length_take (n : nat) (s : string) :
  String.length (Py.take n s) = Nat.min n (String.length s).
Proof.
  revert s; induction n as [|n IH]; intros [|c s]; simpl; auto.
Qed.

Lemma str_app_empty_r (a : string) : a +:+ "" = a.
Proof.
  induction a as [|c a IH]; simpl; [reflexivity | now rewrite IH].
Qed.

Lemma str_app_assoc (a b c : string) : (a +:+ b) +:+ c = a +:+ (b +:+ c).
Proof.
  induction a as [|x a IH]; simpl; [reflexivity | now rewrite IH].
Qed.

Lemma str_rev_onto_app (s acc : string) :
  Py.rev_onto s acc = Py.rev s +:+ acc.
Proof.
  unfold Py.rev; revert acc.
  induction s as [|c s IH]; intros acc; simpl; [reflexivity|].
  rewrite (IH (String c acc)), (IH (String c "")), str_app_assoc.
  reflexivity.
Qed.

Lemma str_rev_app (a b : string) : Py.rev (a +:+ b) = Py.rev b +:+ Py.rev a.
Proof.
  induction a as [|c a IH]; simpl.
  - now rewrite str_app_empty_r.
  - unfold Py.rev in *; simpl.
    rewrite (str_rev_onto_app (a +:+ b)), (str_rev_onto_app a).
    unfold Py.rev; rewrite IH, str_app_assoc; reflexivity.
Qed.

Lemma startswith_app (p s : string) : Py.startswith p (p +:+ s) = true.
Proof.
  induction p as [|c p IH]; simpl; [reflexivity|].
  now rewrite Ascii.eqb_refl, IH.
Qed.

Lemma startswith_spec (p s : string) :
  Py.startswith p s = true <-> exists post, s = p +:+ post.
Proof.
  split.
  - revert s; induction p as [|c p IH]; intros s H; simpl in *.
    + now exists s.
    + destruct s as [|d s]; [discriminate|].
      apply andb_true_iff in H as [Hc Hp].
      apply Ascii.eqb_eq in Hc; subst d.
      destruct (IH _ Hp) as [post ->]; now exists post.
  - intros [post ->]; apply startswith_app.
Qed.

Lemma contains_startswith (p s : string) :
  Py.startswith p s = true -> Py.contains p s = true.
Proof.
  intros H; destruct s; simpl; rewrite H; reflexivity.
Qed.

(** [p in s] holds exactly when [s] is [p] between two strings. *)
Lemma contains_spec (p s : string) :
  Py.contains p s = true <-> exists pre post, s = pre +:+ p +:+ post.
Proof.
  split.
  - induction s as [|c s IH]; simpl; intros H.
    + apply orb_true_iff in H as [H|H]; [|discriminate].
      apply startswith_spec in H as [post ->]; now exists "", post.
    + apply orb_true_iff in H as [H|H].
      * apply startswith_spec in H as [post ->]; now exists "", post.
      * destruct (IH H) as (pre & post & ->).
        now exists (String c pre), post.
  - intros (pre & post & ->).
    induction pre as [|c pre IH]; simpl.
    + apply contains_startswith, startswith_app.
    + rewrite IH; apply orb_true_r.
Qed.

Lemma endswith_app (p s : string) : Py.endswith p (s +:+ p) = true.
Proof.
  unfold Py.endswith; rewrite str_rev_app; apply startswith_app.
Qed.

(** ** Score filtering ([document_utils.filter_documents_by_score]) *)

Section FilterProperties.

Variable score : Type.
Variable score_lt : score -> score -> bool.

(** The loop appends, in order, the documents whose score passes. *)
Lemma filter_loop_spec (threshold : score)
    (docs : list (Document * score)) (acc : list Document) :
  fold_left
    (fun filtered_docs ds =>
       if score_lt (snd ds) threshold
       then filtered_docs ++ [fst ds] else filtered_docs)
    docs acc
  = acc ++ map fst (List.filter (fun ds => score_lt (snd ds) threshold) docs).
Proof.
  revert acc; induction docs as [|[d s] docs IH]; intros acc; simpl.
  - now rewrite List.app_nil_r.
  - rewrite IH; destruct (score_lt s threshold); simpl; [|reflexivity].
    now rewrite <- List.app_assoc.
Qed.

(** C9: for a price query every document is returned, in order, whatever
    the threshold; otherwise exactly the documents whose score is
    strictly below the threshold are returned, in order. *)
Theorem filter_documents_by_score_spec
    (docs : list (Document * score)) (threshold : score) :
  document_utils.filter_documents_by_score score score_lt docs threshold true
    = map fst docs
  /\ document_utils.filter_documents_by_score score score_lt docs threshold
       false
     = map fst (List.filter (fun ds => score_lt (snd ds) threshold) docs).
Proof.
  split; [reflexivity|].
  unfold document_utils.filter_documents_by_score.
  now rewrite filter_loop_spec.
Qed.

End FilterProperties.

(** ** Classification ([pattern_matching]) *)

(** C7: the query "X-Ray BDT" is a price query, a direct price query, and
    its treatment name is "X-Ray". *)
Theorem classify_xray_bdt :
  pattern_matching.is_price_query "X-Ray BDT" = true
  /\ pattern_matching.is_direct_price_query "X-Ray BDT" = true
  /\ pattern_matching.extract_treatment_from_query "X-Ray BDT"
     = Some "X-Ray".
Proof.
  repeat split; vm_compute; reflexivity.
Qed.

(** The older [utils.py] agrees on the direct form and on the name, but
    its keyword list has no currency word. *)
Example utils_classify_xray_bdt :
  utils.is_price_query "X-Ray BDT" = false
  /\ utils.is_direct_price_query "X-Ray BDT" = true
  /\ utils.extract_treatment_from_query "X-Ray BDT" = Some "X-Ray".
Proof.
  repeat split; vm_compute; reflexivity.
Qed.

(** C2, as stated, fails: "how expensive" is a direct price query by the
    fourth interrogative pattern, and no extraction pattern gives it a
    name. *)
Lemma direct_query_without_name :
  ~ (forall query : string,
       pattern_matching.is_direct_price_query query = true ->
       pattern_matching.extract_treatment_from_query query <> None).
Proof.
  intros H.
  apply (H "how expensive"); vm_compute; reflexivity.
Qed.

Lemma bdt_pattern_rejects_empty :
  Re.match_ pattern_matching.BDT_QUERY_PATTERN "" = None.
Proof. vm_compute; reflexivity. Qed.

(** C2, amended: a query of the form "<name> BDT|Tk|Taka" is a direct
    price query and its treatment name is not null: it is the captured
    name, trimmed. *)
Theorem direct_bdt_query_has_name (query : string) (m : Re.match_obj) :
  Re.match_ pattern_matching.BDT_QUERY_PATTERN query = Some m ->
  pattern_matching.is_direct_price_query query = true
  /\ pattern_matching.extract_treatment_from_query query
     = Some (Py.strip (Re.group_or_empty 1 m)).
Proof.
  intros Hm; split.
  - unfold pattern_matching.is_direct_price_query.
    destruct query as [|c q].
    + rewrite bdt_pattern_rejects_empty in Hm; discriminate.
    + now rewrite Hm.
  - unfold pattern_matching.extract_treatment_from_query.
    now rewrite Hm.
Qed.

Lemma direct_bdt_query_has_name_witness :
  pattern_matching.is_direct_price_query "X-Ray BDT" = true
  /\ pattern_matching.extract_treatment_from_query "X-Ray BDT"
     = Some (Py.strip (Re.group_or_empty 1 (Re.MatchObj 0 9 [(1, "X-Ray")]))).
Proof.
  apply (direct_bdt_query_has_name "X-Ray BDT").
  vm_compute; reflexivity.
Defined.

(** ** Responses ([response_formatter]) *)

Lemma choice_greeting (rnd : nat) :
  In (response_formatter.choice rnd response_formatter.greeting)
     response_formatter.greeting.
Proof.
  unfold response_formatter.choice.
  apply nth_In, Nat.mod_upper_bound; discriminate.
Qed.

(** The text after the greeting is the input, or its first
    [max_sentences] pieces between full stops rejoined with ". " and
    closed by a full stop. *)
Lemma limit_text_cases (text : string) (max_sentences : option Z) :
  response_formatter.limit_text text max_sentences = text
  \/ exists m, max_sentences = Some m
       /\ response_formatter.limit_text text max_sentences
          = Py.join ". " (Py.slice_to m (Py.split_char "." text)) +:+ ".".
Proof.
  unfold response_formatter.limit_text.
  destruct max_sentences as [m|]; [|now left].
  destruct (m =? 0)%Z; [now left|].
  destruct (m <? _)%Z; [right; now exists m | now left].
Qed.

(** C10: for a non-empty text, whatever number is drawn, the response is
    one of the four greetings, a space, and the text (sentence-limited
    when a limit applies); for an empty or null text it is the fixed
    apology. *)
Theorem format_response_spec (rnd : nat) (text : string)
    (max_sentences : option Z) :
  text <> "" ->
  (exists intro,
     In intro response_formatter.greeting
     /\ length response_formatter.greeting = 4
     /\ response_formatter.format_response rnd (Some text) max_sentences
        = intro +:+ " " +:+ response_formatter.limit_text text max_sentences)
  /\ response_formatter.format_response rnd (Some "") max_sentences
     = response_formatter.apology
  /\ response_formatter.format_response rnd None max_sentences
     = response_formatter.apology.
Proof.
  intros Hne; split; [|split; reflexivity].
  exists (response_formatter.choice rnd response_formatter.greeting).
  split; [apply choice_greeting | split; [reflexivity|]].
  destruct text; [contradiction | reflexivity].
Qed.

Lemma format_response_spec_witness :
  (exists intro,
     In intro response_formatter.greeting
     /\ length response_formatter.greeting = 4
     /\ response_formatter.format_response 6 (Some "Rest. Drink water. Sleep.")
          (Some 2%Z)
        = intro +:+ " " +:+
          response_formatter.limit_text "Rest. Drink water. Sleep." (Some 2%Z))
  /\ response_formatter.format_response 6 (Some "") (Some 2%Z)
     = response_formatter.apology
  /\ response_formatter.format_response 6 None (Some 2%Z)
     = response_formatter.apology.
Proof.
  apply (format_response_spec 6 "Rest. Drink water. Sleep." (Some 2%Z)).
  discriminate.
Defined.

Example format_response_limited :
  response_formatter.format_response 6 (Some "Rest. Drink water. Sleep.")
    (Some 2%Z)
  = "Welcome! I'm Local RAG Chatbot, your medical information assistant. How may I assist you today? Rest.  Drink water.".
Proof. vm_compute; reflexivity. Qed.

(** C8: a response whose price is already "500.00 BDT" does not keep it:
    the pass appends ".00" to every " BDT" and the space fix then splits
    the digits. *)
Theorem format_price_response_breaks_canonical :
  response_formatter.format_price_response "The cost is 500.00 BDT."
    (Some [("x-ray", "500")])
  = "The cost is 500. 0 0.00 BDT."
  /\ Py.contains "500.00 BDT"
       (response_formatter.format_price_response "The cost is 500.00 BDT."
          (Some [("x-ray", "500")])) = false.
Proof.
  split; vm_compute; reflexivity.
Qed.

(** The regular expression of [utils.py] keeps the ".00", yet the space
    fix it shares splits the digits there too; a one-digit price
    survives both passes. *)
Example utils_format_price_response_canonical :
  utils.format_price_response "The cost is 500.00 BDT." None
  = "The cost is 5 0 0.00 BDT."
  /\ utils.format_price_response "The cost is 5.00 BDT." None
     = "The cost is 5.00 BDT.".
Proof.
  split; vm_compute; reflexivity.
Qed.

(** ** Sentence limiting ([text_processing.ensure_sentence_limit]) *)

(** C4: on "A. B. C. D." with a limit of two the function returns
    "A.. B.": the pieces keep their full stops and are joined with
    another one. *)
Theorem ensure_sentence_limit_doubles_stop :
  text_processing.ensure_sentence_limit "A. B. C. D." 2 = "A.. B."
  /\ Re.split text_processing.SENTENCE_PATTERN [] "A. B. C. D."
     = ["A."; "B."; "C."; "D."].
Proof.
  split; vm_compute; reflexivity.
Qed.

(** [utils.ensure_sentence_limit] splits the terminators off and gives
    the expected text. *)
Example utils_ensure_sentence_limit_example :
  utils.ensure_sentence_limit "A. B. C. D." 2 = "A. B.".
Proof. vm_compute; reflexivity. Qed.

(** The general part of the sentence: over the limit, the result is the
    kept pieces joined with ". ", with a full stop added unless it ends
    in a terminator already; so it always ends in one. *)
Lemma ensure_sentence_limit_over (text : string) (max_sentences : Z) :
  let sentences :=
    Re.split text_processing.SENTENCE_PATTERN [] (Py.strip text) in
  (max_sentences < Z.of_nat (length sentences))%Z ->
  let kept := Py.join ". " (Py.slice_to max_sentences sentences) in
  (text_processing.ensure_sentence_limit text max_sentences = kept
   \/ text_processing.ensure_sentence_limit text max_sentences = kept +:+ ".")
  /\ text_processing.ends_with_terminator
       (text_processing.ensure_sentence_limit text max_sentences) = true.
Proof.
  intros sentences Hover kept.
  unfold text_processing.ensure_sentence_limit.
  fold sentences; fold kept.
  destruct (Z.leb_spec (Z.of_nat (length sentences)) max_sentences) as [H|_];
    [lia|].
  destruct (text_processing.ends_with_terminator kept) eqn:E; simpl.
  - split; [now left | exact E].
  - split; [now right|].
    unfold text_processing.ends_with_terminator.
    now rewrite endswith_app.
Qed.

(** Within the limit the text is returned as it is. *)
Lemma ensure_sentence_limit_within (text : string) (max_sentences : Z) :
  (Z.of_nat (length (Re.split text_processing.SENTENCE_PATTERN []
                       (Py.strip text))) <= max_sentences)%Z ->
  text_processing.ensure_sentence_limit text max_sentences = text.
Proof.
  intros H; unfold text_processing.ensure_sentence_limit.
  now destruct (Z.leb_spec
    (Z.of_nat (length (Re.split text_processing.SENTENCE_PATTERN []
                         (Py.strip text)))) max_sentences); [|lia].
Qed.

(** ** Price extraction *)

(** C3: [text_processing.extract_price_info] raises on a document whose
    content is "price 500": the pattern it imports has one group, so
    each match is the string "500", which does not unpack into a pair. *)
Theorem text_processing_extract_raises :
  text_processing.extract_price_info [price_500_doc] = Raise ValueError
  /\ Re.findall1 text_processing.PRICE_PATTERN "price 500" = ["500"].
Proof.
  split; vm_compute; reflexivity.
Qed.

(** The other two extractors return the empty mapping there. *)
Example sibling_extractors_on_price_500 :
  document_utils.extract_price_info [price_500_doc] = []
  /\ utils.extract_price_info [price_500_doc] = [].
Proof.
  split; vm_compute; reflexivity.
Qed.

(** Without any document the three extractors return the empty mapping. *)
Example extract_no_documents :
  document_utils.extract_price_info [] = []
  /\ text_processing.extract_price_info [] = Ok []
  /\ utils.extract_price_info [] = [].
Proof.
  repeat split; reflexivity.
Qed.

Lemma metadata_truthy_of_price_flag (m : Metadata) (b : bool) :
  md_has_price_info m = Some b -> metadata_truthy m = true.
Proof.
  intros H; unfold metadata_truthy; rewrite H; simpl.
  now rewrite !orb_true_r.
Qed.

(** C5: for a document whose metadata has [has_price_info] true and a
    [price_data] mapping, the extractor merges that mapping into the
    prices found so far and nothing else, whatever the content; a single
    such document with {"x-ray": "500"} gives exactly that mapping. *)
Theorem extract_metadata_prices (doc : Document) (pd : dict string) :
  md_has_price_info (metadata doc) = Some true ->
  md_price_data (metadata doc) = Some pd ->
  (forall price_info,
     document_utils.extract_from_doc price_info doc
     = dict_update price_info pd)
  /\ (forall price_info content,
        document_utils.extract_from_doc price_info
          {| page_content := content; metadata := metadata doc |}
        = document_utils.extract_from_doc price_info doc)
  /\ (pd = [("x-ray", "500")] ->
      document_utils.extract_price_info [doc] = [("x-ray", "500")]).
Proof.
  intros Hflag Hdata.
  assert (Hstep : forall price_info content,
            document_utils.extract_from_doc price_info
              {| page_content := content; metadata := metadata doc |}
            = dict_update price_info pd).
  { intros price_info content.
    unfold document_utils.extract_from_doc; simpl.
    now rewrite (metadata_truthy_of_price_flag _ _ Hflag), Hflag, Hdata. }
  assert (Hdoc : forall price_info,
            document_utils.extract_from_doc price_info doc
            = dict_update price_info pd).
  { intros price_info; destruct doc as [content md]; apply Hstep. }
  split; [exact Hdoc | split].
  - intros price_info content; now rewrite Hstep, Hdoc.
  - intros ->; unfold document_utils.extract_price_info; simpl.
    now rewrite Hdoc.
Qed.

(** ** Treatment matching ([pattern_matching.treatments_match]) *)

Lemma ratio_ge_07_spec (n d : nat) :
  0 < d ->
  pattern_matching.ratio_ge_07 n d = true
  <-> (7 # 10 <= inject_Z (Z.of_nat n) / inject_Z (Z.of_nat d))%Q.
Proof.
  intros Hd; unfold pattern_matching.ratio_ge_07.
  rewrite Nat.leb_le.
  destruct d as [|d']; [lia|].
  unfold Qle, Qdiv, Qmult, Qinv, inject_Z.
  rewrite Nat2Z.inj_succ.
  destruct (Z.succ (Z.of_nat d')) eqn:E; try lia.
  simpl Qnum; simpl Qden; lia.
Qed.

Lemma size_pos (X : gset string) : X <> ∅ -> 0 < size X.
Proof.
  intros HX; destruct (size X) eqn:E; [|lia].
  apply size_empty_iff in E; apply leibniz_equiv in E; contradiction.
Qed.

Lemma words_checked (X Y : gset string) :
  bool_decide (X = ∅) || bool_decide (Y = ∅) = false <-> X <> ∅ /\ Y <> ∅.
Proof.
  rewrite orb_false_iff, !bool_decide_eq_false; reflexivity.
Qed.

(** C6: [treatments_match] holds exactly when the specification's rule
    does; "dental cleaning" matches "cleaning" and "root canal" does not
    match "teeth whitening". *)
Theorem treatments_match_spec :
  (forall a b : string,
     pattern_matching.treatments_match a b = true <-> Spec.matches a b)
  /\ pattern_matching.treatments_match "dental cleaning" "cleaning" = true
  /\ pattern_matching.treatments_match "root canal" "teeth whitening" = false.
Proof.
  split; [|split; vm_compute; reflexivity].
  intros a b.
  unfold pattern_matching.treatments_match, Spec.matches, Spec.overlap,
    Spec.is_substring.
  set (na := pattern_matching.normalize_treatment_name a).
  set (nb := pattern_matching.normalize_treatment_name b).
  set (wa := pattern_matching.words_of na).
  set (wb := pattern_matching.words_of nb).
  destruct (String.eqb_spec na nb) as [Heq|Hne]; [tauto|].
  destruct (Py.contains na nb) eqn:Hab.
  { apply contains_spec in Hab; simpl; tauto. }
  destruct (Py.contains nb na) eqn:Hba.
  { apply contains_spec in Hba; simpl; tauto. }
  simpl.
  assert (Hnab : ~ exists pre post, nb = pre +:+ na +:+ post).
  { intros H; apply contains_spec in H; congruence. }
  assert (Hnba : ~ exists pre post, na = pre +:+ nb +:+ post).
  { intros H; apply contains_spec in H; congruence. }
  destruct (bool_decide (wa = ∅) || bool_decide (wb = ∅)) eqn:Hw.
  - split; [discriminate|].
    intros [H|[H|[H|(Ha & Hb & _)]]]; try tauto.
    assert (Hf : bool_decide (wa = ∅) || bool_decide (wb = ∅) = false)
      by (apply words_checked; tauto).
    congruence.
  - apply words_checked in Hw as [Ha Hb].
    pose proof (size_pos _ Ha); pose proof (size_pos _ Hb).
    assert (Hmin : 0 < Nat.min (size wa) (size wb)) by lia.
    destruct (Nat.eqb_spec (Nat.min (size wa) (size wb)) 0) as [E|_]; [lia|].
    rewrite (ratio_ge_07_spec _ _ Hmin).
    tauto.
Qed.

(** The older [utils.treatments_match] strips the spaces as well, so its
    word rule never adds to the first two; it accepts "root canal"
    against "rootcanal", which the rule above rejects. *)
Example utils_treatments_match_examples :
  utils.treatments_match "dental cleaning" "cleaning" = true
  /\ utils.treatments_match "root canal" "teeth whitening" = false
  /\ utils.treatments_match "root canal" "rootcanal" = true
  /\ pattern_matching.treatments_match "root canal" "rootcanal" = false.
Proof.
  repeat split; vm_compute; reflexivity.
Qed.

(** The other examples of the specification. *)
Example treatments_match_xray :
  pattern_matching.treatments_match "X-Ray" "xray" = true
  /\ pattern_matching.normalize_treatment_name "  X-Ray,  Chest " = "xray chest".
Proof.
  split; vm_compute; reflexivity.
Qed.

(** ** Context assembly ([document_utils.format_retrieved_context]) *)

(** C1: the context of one short document whose source name has four
    thousand characters, and the context of five long documents with
    long source names, both have 4034 characters: the text is cut to
    four thousand characters and the marker is added after the cut. *)
Theorem format_retrieved_context_exceeds_limit :
  String.length
    (document_utils.format_retrieved_context [long_source_doc] None) = 4034
  /\ String.length
       (document_utils.format_retrieved_context five_big_docs None) = 4034
  /\ String.length document_utils.context_marker = 34.
Proof.
  repeat split; vm_compute; reflexivity.
Qed.

(** X13: what does hold for every input: the length never exceeds four
    thousand characters plus the marker. *)
Lemma format_retrieved_context_length (docs : list Document)
    (doc_type : option string) :
  String.length (document_utils.format_retrieved_context docs doc_type)
  <= document_utils.max_context_length
     + String.length document_utils.context_marker.
Proof.
  unfold document_utils.format_retrieved_context.
  destruct docs as [|d docs]; [simpl; lia|].
  set (result := document_utils.joined_context (d :: docs) doc_type).
  destruct (Nat.ltb_spec document_utils.max_context_length
              (String.length result)) as [Hlong|Hshort].
  - rewrite str_length_app, str_length_take; lia.
  - lia.
Qed.

(** The truncation is marked: a context over the limit is returned as
    its first four thousand characters followed by the marker, and a
    context within the limit is returned whole. *)
Lemma format_retrieved_context_marked (docs : list Document)
    (doc_type : option string) :
  docs <> [] ->
  let result := document_utils.joined_context docs doc_type in
  (document_utils.max_context_length < String.length result ->
   document_utils.format_retrieved_context docs doc_type
   = Py.take document_utils.max_context_length result
     +:+ document_utils.context_marker
   /\ Py.endswith document_utils.context_marker
        (document_utils.format_retrieved_context docs doc_type) = true)
  /\ (String.length result <= document_utils.max_context_length ->
      document_utils.format_retrieved_context docs doc_type = result).
Proof.
  intros Hne result.
  unfold document_utils.format_retrieved_context.
  destruct docs as [|d docs]; [contradiction|].
  fold result.
  destruct (Nat.ltb_spec document_utils.max_context_length
              (String.length result)) as [Hlong|Hshort].
  - split; [|lia].
    intros _; split; [reflexivity | apply endswith_app].
  - split; [lia | reflexivity].
Qed.

(** A document's excerpt is marked in the same way when its content is
    cut to five hundred characters. *)
Lemma excerpt_marked (doc : Document) :
  let content := Py.strip (page_content doc) in
  (500 < String.length content ->
   document_utils.excerpt doc
   = Py.take 500 content +:+ document_utils.content_marker)
  /\ (String.length content <= 500 -> document_utils.excerpt doc = content).
Proof.
  intros content; unfold document_utils.excerpt; fold content.
  destruct (Nat.ltb_spec 500 (String.length content)); split;
    intros; try reflexivity; lia.
Qed.

(** No more than three price documents and two other documents are
    kept: six price-bearing documents give three labelled parts. *)
Example six_price_docs_give_three_parts :
  document_utils.format_retrieved_context
    (map (fun c => {| page_content := c; metadata := no_metadata |})
         ["fee 1"; "fee 2"; "fee 3"; "fee 4"; "fee 5"; "fee 6"])
    (Some "Pricing Information")
  = Py.join (String "010" (String "010" ""))
      ["--- Pricing Information ---"; "[PRICE INFO 1]: fee 1";
       "[PRICE INFO 2]: fee 2"; "[PRICE INFO 3]: fee 3"].
Proof. vm_compute; reflexivity. Qed.

Lemma extract_metadata_prices_witness :
  (forall price_info,
     document_utils.extract_from_doc price_info xray_doc
     = dict_update price_info [("x-ray", "500")])
  /\ (forall price_info content,
        document_utils.extract_from_doc price_info
          {| page_content := content; metadata := metadata xray_doc |}
        = document_utils.extract_from_doc price_info xray_doc)
  /\ ([("x-ray", "500")] = [("x-ray", "500")] ->
      document_utils.extract_price_info [xray_doc] = [("x-ray", "500")]).
Proof.
  apply (extract_metadata_prices xray_doc [("x-ray", "500")]);
    reflexivity.
Defined.

(** The extractors of [utils.py] and [text_processing.py] read the
    content of such a document as well. *)
Example other_extractors_scan_content :
  utils.extract_price_info [xray_doc] = [("x-ray", "500"); ("scan", "700")]
  /\ document_utils.extract_price_info [xray_doc] = [("x-ray", "500")].
Proof.
  split; vm_compute; reflexivity.
Qed.

(** * Further properties of the code *)

Import Re.

(** ** Further properties of [pattern_matching.treatments_match] *)

Lemma string_eqb_sym (a b : string) : String.eqb a b = String.eqb b a.
Proof.
  destruct (String.eqb_spec a b) as [->|H].
  - now rewrite String.eqb_refl.
  - symmetry; apply String.eqb_neq; congruence.
Qed.

(** X2: matching is reflexive and symmetric. *)
Theorem treatments_match_refl_sym (a b : string) :
  pattern_matching.treatments_match a a = true
  /\ pattern_matching.treatments_match a b
     = pattern_matching.treatments_match b a.
Proof.
  split.
  - unfold pattern_matching.treatments_match.
    now rewrite String.eqb_refl.
  - unfold pattern_matching.treatments_match.
    set (na := pattern_matching.normalize_treatment_name a).
    set (nb := pattern_matching.normalize_treatment_name b).
    rewrite (string_eqb_sym nb na).
    rewrite (orb_comm (Py.contains nb na)).
    rewrite (orb_comm (bool_decide (pattern_matching.words_of nb = ∅))).
    rewrite (Nat.min_comm (size (pattern_matching.words_of nb))).
    rewrite (comm_L (∩) (pattern_matching.words_of nb)).
    reflexivity.
Qed.

(** In [utils.py] a query is direct exactly when a name is extracted
    from it: both functions use the one pattern. *)
Lemma utils_direct_iff_name (query : string) :
  utils.is_direct_price_query query = true
  <-> utils.extract_treatment_from_query query <> None.
Proof.
  unfold utils.is_direct_price_query, utils.extract_treatment_from_query.
  destruct (Re.match_ utils.BDT_QUERY_PATTERN query); simpl; split;
    intros H; congruence.
Qed.

(** ** [response_formatter.add_price_info] *)

Lemma contains_between (pre p post : string) :
  Py.contains p (pre +:+ p +:+ post) = true.
Proof. apply contains_spec; now exists pre, post. Qed.

Lemma add_price_info_contains (response treatment price : string) :
  Py.contains (price +:+ ".00 BDT")
    (response_formatter.add_price_info response treatment price) = true.
Proof.
  unfold response_formatter.add_price_info.
  destruct (Py.contains (price +:+ ".00 BDT") response) eqn:E; [exact E|].
  assert (Htrail : forall sep,
            Py.contains (price +:+ ".00 BDT")
              (response +:+ sep +:+ treatment +:+ " is " +:+
               (price +:+ ".00 BDT") +:+ ".") = true).
  { intros sep.
    replace (response +:+ sep +:+ treatment +:+ " is " +:+
             (price +:+ ".00 BDT") +:+ ".")
      with ((response +:+ sep +:+ treatment +:+ " is ") +:+
            (price +:+ ".00 BDT") +:+ ".")
      by (now rewrite !str_app_assoc).
    apply contains_between. }
  assert (Htrailing :
            Py.contains (price +:+ ".00 BDT")
              (if String.length response <? 80
               then response +:+ " The cost for " +:+ treatment +:+ " is " +:+
                    (price +:+ ".00 BDT") +:+ "."
               else if Py.endswith "." response
               then response +:+ " The cost for " +:+ treatment +:+ " is " +:+
                    (price +:+ ".00 BDT") +:+ "."
               else response +:+ ". The cost for " +:+ treatment +:+ " is " +:+
                    (price +:+ ".00 BDT") +:+ ".") = true).
  { destruct (String.length response <? 80); [apply Htrail|].
    destruct (Py.endswith "." response); apply Htrail. }
  destruct (Py.contains (Py.lower treatment) (Py.lower response));
    [|exact Htrailing].
  destruct (Re.finditer _ response) as [|m ms]; [exact Htrailing|].
  replace (Py.take (Re.m_end m) response +:+ " costs " +:+
           (price +:+ ".00 BDT") +:+ Py.drop (Re.m_end m) response)
    with ((Py.take (Re.m_end m) response +:+ " costs ") +:+
          (price +:+ ".00 BDT") +:+ Py.drop (Re.m_end m) response)
    by (now rewrite !str_app_assoc).
  apply contains_between.
Qed.

(** X16: the response returned by [add_price_info] always states the price,
    a response that states it already is returned as it is, and so a
    second call changes nothing. *)
Theorem add_price_info_states_price (response treatment price : string) :
  Py.contains (price +:+ ".00 BDT")
    (response_formatter.add_price_info response treatment price) = true
  /\ (Py.contains (price +:+ ".00 BDT") response = true ->
      response_formatter.add_price_info response treatment price = response)
  /\ response_formatter.add_price_info
       (response_formatter.add_price_info response treatment price)
       treatment price
     = response_formatter.add_price_info response treatment price.
Proof.
  assert (Hkeep : forall r,
            Py.contains (price +:+ ".00 BDT") r = true ->
            response_formatter.add_price_info r treatment price = r).
  { intros r Hr; unfold response_formatter.add_price_info; now rewrite Hr. }
  pose proof (add_price_info_contains response treatment price) as Hin.
  split; [exact Hin | split; [apply Hkeep | now apply Hkeep]].
Qed.

Lemma take_drop (n : nat) (s : string) : Py.take n s +:+ Py.drop n s = s.
Proof.
  revert s; induction n as [|n IH]; intros [|c s]; simpl; try reflexivity.
  now rewrite IH.
Qed.

(** ** [response_formatter.format_price_response] *)

(** The treatment chosen is the first of the map that the response
    mentions. *)
Lemma best_match_sound (items : dict string) (modified item price : string) :
  response_formatter.best_match items modified = Some (item, price) ->
  In (item, price) items
  /\ Py.contains (Py.lower item) (Py.lower modified) = true.
Proof.
  induction items as [|[i p] items IH]; simpl; [discriminate|].
  destruct (Py.contains (Py.lower i) (Py.lower modified)) eqn:E.
  - intros [= -> ->]; split; [now left | exact E].
  - intros H; apply IH in H as [Hin Hc]; split; [now right | exact Hc].
Qed.

(** X17: when the normalised response shows no price and mentions a
    treatment of a non-empty price map, [format_price_response] returns
    the normalised response with the price of the first such treatment
    added by [add_price_info], so the result states that price. *)
Theorem format_price_response_injects
    (response : string) (price_info : dict string) (item price : string) :
  let modified :=
    Re.sub response_formatter.SPACE_BEFORE_PRICE_PATTERN (fun _ => " ")
      (Py.replace " BDT" ".00 BDT" response) in
  Re.search response_formatter.PRICE_FORMAT_PATTERN modified = None ->
  response_formatter.best_match price_info modified = Some (item, price) ->
  In (item, price) price_info
  /\ Py.contains (Py.lower item) (Py.lower modified) = true
  /\ response_formatter.format_price_response response (Some price_info)
     = response_formatter.add_price_info modified item price
  /\ Py.contains (price +:+ ".00 BDT")
       (response_formatter.format_price_response response (Some price_info))
     = true.
Proof.
  intros modified Hnone Hbest.
  destruct (best_match_sound _ _ _ _ Hbest) as [Hin Hmention].
  assert (Heq : response_formatter.format_price_response response
                  (Some price_info)
                = response_formatter.add_price_info modified item price).
  { unfold response_formatter.format_price_response.
    destruct price_info as [|kv rest]; [discriminate|].
    fold modified; now rewrite Hnone, Hbest. }
  repeat split; try assumption.
  rewrite Heq; apply add_price_info_contains.
Qed.

Lemma format_price_response_injects_witness :
  In ("x-ray", "500") [("mri", "900"); ("x-ray", "500")]
  /\ Py.contains (Py.lower "x-ray")
       (Py.lower
          (Re.sub response_formatter.SPACE_BEFORE_PRICE_PATTERN
             (fun _ => " ")
             (Py.replace " BDT" ".00 BDT" "An X-Ray is quick."))) = true
  /\ response_formatter.format_price_response "An X-Ray is quick."
       (Some [("mri", "900"); ("x-ray", "500")])
     = response_formatter.add_price_info
         (Re.sub response_formatter.SPACE_BEFORE_PRICE_PATTERN (fun _ => " ")
            (Py.replace " BDT" ".00 BDT" "An X-Ray is quick."))
         "x-ray" "500"
  /\ Py.contains ("500" +:+ ".00 BDT")
       (response_formatter.format_price_response "An X-Ray is quick."
          (Some [("mri", "900"); ("x-ray", "500")]))
     = true.
Proof.
  apply (format_price_response_injects "An X-Ray is quick."
           [("mri", "900"); ("x-ray", "500")] "x-ray" "500");
    vm_compute; reflexivity.
Defined.

Example format_price_response_injection_example :
  response_formatter.format_price_response "An X-Ray is quick."
    (Some [("mri", "900"); ("x-ray", "500")])
  = "An X-Ray costs 500.00 BDT is quick.".
Proof. vm_compute; reflexivity. Qed.

(** ** [response_formatter.add_human_touch] *)

Lemma rev_cons (c : ascii) (s : string) :
  Py.rev (String c s) = Py.rev s +:+ String c "".
Proof. unfold Py.rev; simpl; apply str_rev_onto_app. Qed.


Lemma choice_in (rnd : nat) (l : list string) :
  l <> [] -> In (response_formatter.choice rnd l) l.
Proof.
  intros Hl; unfold response_formatter.choice.
  apply nth_In, Nat.mod_upper_bound.
  destruct l; [contradiction | discriminate].
Qed.


(** ** Error phrases *)

Lemma known_error_type (error_type : string) :
  dict_mem error_type response_formatter.RESPONSE_VARIATIONS = true ->
  length (response_formatter.variations error_type) = 4.
Proof.
  unfold dict_mem, response_formatter.variations,
    response_formatter.RESPONSE_VARIATIONS; simpl.
  repeat (destruct (String.eqb error_type _); [reflexivity|]).
  discriminate.
Qed.

(** X19: [format_error_response] returns one of the four phrases of the
    error type when the table has it and one of the four general error
    phrases otherwise; the error text itself is never shown. *)
Theorem format_error_response_spec (rnd : nat) (error error_type : string) :
  (dict_mem error_type response_formatter.RESPONSE_VARIATIONS = true ->
   In (response_formatter.format_error_response rnd error error_type)
      (response_formatter.variations error_type))
  /\ (dict_mem error_type response_formatter.RESPONSE_VARIATIONS = false ->
      In (response_formatter.format_error_response rnd error error_type)
         (response_formatter.variations "general_error"))
  /\ response_formatter.format_error_response rnd error error_type <> ""
  /\ (forall other,
        response_formatter.format_error_response rnd other error_type
        = response_formatter.format_error_response rnd error error_type).
Proof.
  assert (Hin : forall key,
            dict_mem key response_formatter.RESPONSE_VARIATIONS = true ->
            In (response_formatter.choice rnd
                  (response_formatter.variations key))
               (response_formatter.variations key)).
  { intros key Hk; apply choice_in.
    apply known_error_type in Hk.
    destruct (response_formatter.variations key); [discriminate|congruence]. }
  assert (Hne : forall key,
            dict_mem key response_formatter.RESPONSE_VARIATIONS = true ->
            response_formatter.choice rnd (response_formatter.variations key)
            <> "").
  { intros key Hk He. apply Hin in Hk. rewrite He in Hk. revert Hk.
    unfold dict_mem, response_formatter.variations,
      response_formatter.RESPONSE_VARIATIONS; simpl.
    repeat (destruct (String.eqb key _);
            [simpl; intuition discriminate|]).
    simpl; tauto. }
  unfold response_formatter.format_error_response.
  destruct (dict_mem error_type _) eqn:E.
  - repeat split; try discriminate; auto.
  - repeat split; try discriminate; auto.
Qed.

(** X20: [get_error_response] falls back on the uncertainty phrases. *)
Theorem get_error_response_spec (rnd : nat) (error_type : string) :
  (dict_mem error_type response_formatter.RESPONSE_VARIATIONS = true ->
   In (response_formatter.get_error_response rnd error_type)
      (response_formatter.variations error_type))
  /\ (dict_mem error_type response_formatter.RESPONSE_VARIATIONS = false ->
      In (response_formatter.get_error_response rnd error_type)
         (response_formatter.variations "uncertainty")).
Proof.
  unfold response_formatter.get_error_response.
  destruct (dict_mem error_type _) eqn:E; split; try discriminate; intros _.
  - apply choice_in. apply known_error_type in E.
    destruct (response_formatter.variations error_type);
      [discriminate|congruence].
  - apply choice_in; discriminate.
Qed.

#[local] Arguments Ascii.eqb : simpl never.

(** ** Hash signs ([utils.py]) *)

Lemma all_chars_app P a b :
  Py.all_chars P (a +:+ b) = Py.all_chars P a && Py.all_chars P b.
Proof.
  induction a as [|c a IH]; simpl; [reflexivity|].
  now rewrite IH, andb_assoc.
Qed.

Lemma no_hash_iff (s : string) :
  Py.contains "#" s = false <-> Py.all_chars not_hash s = true.
Proof.
  induction s as [|x s IH]; simpl; [tauto|].
  unfold not_hash at 1.
  rewrite (Ascii.eqb_sym x).
  destruct (Ascii.eqb "#" x); simpl.
  - split; discriminate.
  - exact IH.
Qed.

(** The characters of [s.replace(old, new)] come from [s] and [new]. *)
Lemma replace_aux_all_chars P old new s skip :
  Py.all_chars P s = true -> Py.all_chars P new = true ->
  Py.all_chars P (Py.replace_aux old new s skip) = true.
Proof.
  intros Hs Hn; revert skip Hs.
  induction s as [|c s IH]; intros skip Hs; simpl.
  - now destruct skip.
  - simpl in Hs; apply andb_true_iff in Hs as [Hc Hs].
    destruct skip as [|k]; [|now apply IH].
    destruct (Py.startswith old (String c s)).
    + rewrite all_chars_app, Hn; simpl; now apply IH.
    + simpl; rewrite Hc; simpl; now apply IH.
Qed.

Lemma replace_hash_removed (s : string) :
  Py.all_chars not_hash (Py.replace "#" "" s) = true.
Proof.
  unfold Py.replace.
  induction s as [|c s IH]; simpl; [reflexivity|].
  destruct (Ascii.eqb_spec "#"%char c) as [<-|Hc]; simpl.
  - exact IH.
  - rewrite IH, andb_true_r. unfold not_hash.
    apply negb_true_iff, Ascii.eqb_neq; congruence.
Qed.

(** X24: the response formatted by [utils.format_price_response] contains
    no hash sign. *)
Theorem utils_format_price_response_no_hash
    (response : string) (price_info : option (dict string)) :
  Py.contains "#" (utils.format_price_response response price_info) = false.
Proof.
  apply no_hash_iff; unfold utils.format_price_response.
  apply replace_hash_removed.
Qed.

Lemma lower_char_not_hash (c : ascii) :
  not_hash c = true -> not_hash (Py.lower_char c) = true.
Proof.
  destruct c as [[] [] [] [] [] [] [] []]; vm_compute; auto.
Qed.

Lemma in_all_chars P (l : list string) (x : string) :
  forallb (Py.all_chars P) l = true -> In x l -> Py.all_chars P x = true.
Proof.
  intros H Hin; rewrite forallb_forall in H; now apply H.
Qed.

(** X26: whenever [utils.add_human_touch] returns, the text it returns
    contains no hash sign; it raises [IndexError] only when the response
    holds nothing but hash signs and the first draw falls below 0.3. *)
Theorem utils_add_human_touch_no_hash (below_03 : bool) (rnd1 rnd2 rnd3 : nat)
    (response : string) :
  match utils.add_human_touch below_03 rnd1 rnd2 rnd3 response with
  | response_formatter.Returned text => Py.contains "#" text = false
  | response_formatter.IndexError =>
      below_03 = true /\ Py.replace "#" "" response = ""
  end.
Proof.
  unfold utils.add_human_touch.
  pose proof (replace_hash_removed response) as Hclean.
  set (clean := Py.replace "#" "" response) in *.
  assert (Hchoice : forall rnd key,
            forallb (Py.all_chars not_hash) (utils.variations key) = true ->
            utils.variations key <> [] ->
            Py.all_chars not_hash
              (response_formatter.choice rnd (utils.variations key)) = true).
  { intros rnd key Hall Hne.
    eapply in_all_chars; [exact Hall | now apply choice_in]. }
  assert (Hstock : forall phrase variation text,
            Py.all_chars not_hash text = true ->
            Py.all_chars not_hash variation = true ->
            Py.all_chars not_hash (utils.replace_stock phrase variation text)
            = true).
  { intros phrase variation text Ht Hv; unfold utils.replace_stock.
    destruct (Py.contains phrase text); [|exact Ht].
    now apply replace_aux_all_chars. }
  assert (Hfinish : forall text,
            Py.all_chars not_hash text = true ->
            Py.contains "#"
              (utils.replace_stock
                 "I don't have pricing information about that in my database"
                 (response_formatter.choice rnd3
                    (utils.variations "pricing_unknown"))
                 (utils.replace_stock
                    "I don't have information about that in my database"
                    (response_formatter.choice rnd2
                       (utils.variations "uncertainty")) text)) = false).
  { intros text Ht; apply no_hash_iff.
    apply Hstock; [apply Hstock; [exact Ht|] |];
      apply Hchoice; (vm_compute; reflexivity) || discriminate. }
  destruct (below_03 && _) eqn:E.
  - destruct clean as [|first tail] eqn:Ec.
    + apply andb_true_iff in E as [-> _]; now split.
    + apply Hfinish.
      simpl in Hclean; apply andb_true_iff in Hclean as [Hf Ht].
      rewrite all_chars_app; simpl.
      rewrite (lower_char_not_hash _ Hf), Ht, andb_true_r.
      apply Hchoice; (vm_compute; reflexivity) || discriminate.
  - apply Hfinish; exact Hclean.
Qed.

(** ** Sentence counting *)

Lemma split_build_length (s : string) (last : nat) (ms : list Re.match_obj) :
  length (Re.split_build [] s last ms) = S (length ms).
Proof.
  revert last; induction ms as [|m ms IH]; intros last; simpl;
    [reflexivity | now rewrite IH].
Qed.

(** X8: a text whose stripped form has fewer than [max_sentences]
    sentence boundaries is returned as it is; with that many boundaries
    or more the result is rebuilt and ends in a terminator. *)
Theorem ensure_sentence_limit_by_count (text : string) (max_sentences : Z) :
  ((Z.of_nat (text_processing.count_sentences (Py.strip text))
    < max_sentences)%Z ->
   text_processing.ensure_sentence_limit text max_sentences = text)
  /\ ((max_sentences
       <= Z.of_nat (text_processing.count_sentences (Py.strip text)))%Z ->
      text_processing.ends_with_terminator
        (text_processing.ensure_sentence_limit text max_sentences) = true).
Proof.
  assert (Hlen : length (Re.split text_processing.SENTENCE_PATTERN []
                           (Py.strip text))
                 = S (text_processing.count_sentences (Py.strip text))).
  { unfold Re.split, text_processing.count_sentences.
    apply split_build_length. }
  split; intros H.
  - apply ensure_sentence_limit_within; lia.
  - apply ensure_sentence_limit_over; lia.
Qed.

(** ** [utils.ensure_sentence_limit] *)



(** ** Query enhancement *)

Lemma lower_app (a b : string) :
  Py.lower (a +:+ b) = Py.lower a +:+ Py.lower b.
Proof.
  induction a as [|c a IH]; simpl; [reflexivity | now rewrite IH].
Qed.

Lemma contains_suffix (p pre : string) : Py.contains p (pre +:+ p) = true.
Proof.
  apply contains_spec; exists pre, ""; now rewrite str_app_empty_r.
Qed.

(** X14: the enhanced form of a price query always mentions "price" or
    "cost"; a query that is no price query and does not end in "BDT" is
    returned as it is. *)
Theorem enhance_query_mentions_price (query : string) :
  (let enhanced := Py.lower (document_utils.enhance_query query true) in
   Py.contains "price" enhanced || Py.contains "cost" enhanced = true)
  /\ (document_utils.ends_with_bdt query = false ->
      document_utils.enhance_query query false = query).
Proof.
  split.
  - unfold document_utils.enhance_query.
    destruct (document_utils.ends_with_bdt query).
    + cbv zeta. rewrite lower_app.
      change (Py.lower " treatment procedure price cost")
        with (" treatment procedure price " +:+ "cost").
      rewrite <- str_app_assoc, contains_suffix.
      apply orb_true_r.
    + simpl existsb. rewrite orb_false_r.
      destruct (Py.contains "price" (Py.lower query)
                || Py.contains "cost" (Py.lower query)) eqn:E; simpl.
      * exact E.
      * rewrite lower_app.
        change (Py.lower " price cost") with (" price " +:+ "cost").
        rewrite <- str_app_assoc, contains_suffix.
        apply orb_true_r.
  - intros H; unfold document_utils.enhance_query; now rewrite H.
Qed.

(** ** The query of the price endpoint *)

Lemma upper_app (a b : string) : Py.upper (a +:+ b) = Py.upper a ++ Py.upper b.
Proof.
  induction a as [|c a IH]; simpl; [reflexivity|].
  now rewrite IH, List.app_assoc.
Qed.

Lemma codes_startswith_app (p l : list N) :
  Py.codes_startswith p (p ++ l) = true.
Proof.
  induction p as [|a p IH]; simpl; [reflexivity|].
  now rewrite N.eqb_refl, IH.
Qed.

Lemma codes_endswith_app (p l : list N) : Py.codes_endswith p (l ++ p) = true.
Proof.
  unfold Py.codes_endswith. rewrite List.rev_app_distr.
  apply codes_startswith_app.
Qed.

Lemma take_app_length (a b : string) : Py.take (String.length a) (a +:+ b) = a.
Proof.
  induction a as [|c a IH]; simpl; [now destruct b | now rewrite IH].
Qed.

(** X15: the query "<treatment> BDT" that the price endpoint builds is
    always taken for a direct price query, and its enhanced form is the
    trimmed treatment followed by " treatment procedure price cost",
    whatever the price flag. *)
Theorem price_endpoint_query (treatment : string) (is_price_query : bool) :
  app.is_bdt_price_query (treatment +:+ " BDT") = true
  /\ document_utils.enhance_query (treatment +:+ " BDT") is_price_query
     = Py.strip (treatment +:+ " ") +:+ " treatment procedure price cost".
Proof.
  assert (Hbdt : document_utils.ends_with_bdt (treatment +:+ " BDT") = true).
  { unfold document_utils.ends_with_bdt.
    change (" BDT") with (" " +:+ "BDT").
    rewrite <- str_app_assoc, upper_app.
    change (Py.upper "BDT") with (Py.codes "BDT").
    apply codes_endswith_app. }
  split.
  - unfold app.is_bdt_price_query; now rewrite Hbdt.
  - unfold document_utils.enhance_query; rewrite Hbdt.
    cbv zeta. f_equal. f_equal.
    unfold Py.drop_last.
    change (" BDT") with (" " +:+ "BDT").
    rewrite <- str_app_assoc, str_length_app.
    replace (String.length (treatment +:+ " ") + String.length "BDT" - 3)
      with (String.length (treatment +:+ " ")) by (simpl; lia).
    apply take_app_length.
Qed.

(** ** The matcher and the relation it decides *)

Lemma rmatch_sound ic r : forall st k res,
  rmatch ic r st k = Some res ->
  exists st', Matches ic r st st' /\ k st' = Some res.
Proof.
  induction r as [c| |r1 IH1 r2 IH2|r1 IH1 r2 IH2|g r IH|n r IH| | |c|r IH];
    intros st k res H; simpl in H.
  - destruct st as [pv [|a s'] cs]; simpl in H; [discriminate|].
    destruct (cls_match ic c a) eqn:E; [|discriminate].
    eexists; split; [now apply MClass | exact H].
  - exists st; split; [constructor | exact H].
  - apply IH1 in H as (st1 & M1 & H).
    apply IH2 in H as (st2 & M2 & H).
    exists st2; split; [econstructor; eauto | exact H].
  - destruct (rmatch ic r1 st k) eqn:E.
    + injection H as ->. apply IH1 in E as (st' & M & E).
      exists st'; split; [now apply MAltL | exact E].
    + apply IH2 in H as (st' & M & H).
      exists st'; split; [now apply MAltR | exact H].
  - revert H. generalize (String.length (rest st)) as fuel.
    revert st. intros st fuel; revert st.
    induction fuel as [|fuel IHf]; intros st H.
    + exists st; split; [constructor | exact H].
    + destruct g.
      * match type of H with
        | match ?b with _ => _ end = _ => destruct b eqn:E
        end.
        -- injection H as ->.
           apply IH in E as (st1 & M1 & E).
           destruct (String.length (rest st1) <? String.length (rest st)) eqn:P;
             [|discriminate].
           apply Nat.ltb_lt in P.
           apply IHf in E as (st2 & M2 & E).
           exists st2; split; [eapply MStarStep; eauto | exact E].
        -- exists st; split; [constructor | exact H].
      * destruct (k st) eqn:Ek.
        -- injection H as ->. exists st; split; [constructor | exact Ek].
        -- apply IH in H as (st1 & M1 & E).
           destruct (String.length (rest st1) <? String.length (rest st)) eqn:P;
             [|discriminate].
           apply Nat.ltb_lt in P.
           apply IHf in E as (st2 & M2 & E).
           exists st2; split; [eapply MStarStep; eauto | exact E].
  - apply IH in H as (st1 & M1 & H).
    eexists; split; [apply MGroup; exact M1 | exact H].
  - destruct (prev st) eqn:E; [discriminate|].
    exists st; split; [now constructor | exact H].
  - destruct st as [pv s cs]; simpl in H.
    destruct s as [|c [|d s]]; simpl in H.
    + eexists; split; [apply MEol; now left | exact H].
    + destruct (Ascii.eqb_spec c "010"); [subst|discriminate].
      eexists; split; [apply MEol; now right | exact H].
    + discriminate.
  - destruct (prev st) as [a|] eqn:E; [|discriminate].
    destruct (cls_match ic c a) eqn:Ec; [|discriminate].
    exists st; split; [eapply MLookbehind; eauto | exact H].
  - destruct (rmatch ic r st Some) as [st1|] eqn:E; [|discriminate].
    eexists; split; [apply MLookahead; exact E | exact H].
Qed.

Lemma rmatch_complete ic r : forall st k,
  rmatch ic r st k = None ->
  forall st', Matches ic r st st' -> k st' = None.
Proof.
  induction r as [c| |r1 IH1 r2 IH2|r1 IH1 r2 IH2|g r IH|n r IH| | |c|r IH];
    intros st k H st' M; simpl in H.
  - inversion M as [c' a s' pv cs Hc| | | | | | | | | | |]; subst; simpl in H.
    now rewrite Hc in H.
  - inversion M; subst; exact H.
  - inversion M as [| |r1' r2' st0 st1 st2 M1 M2| | | | | | | | |]; subst.
    eapply IH2; [|exact M2].
    exact (IH1 _ _ H _ M1).
  - destruct (rmatch ic r1 st k) eqn:E; [discriminate|].
    inversion M as [| | |r1' r2' st0 st1 M1|r1' r2' st0 st1 M1| | | | | | |];
      subst; [eapply IH1 | eapply IH2]; eassumption.
  - revert H.
    assert (Hfuel : String.length (rest st) <= String.length (rest st)) by lia.
    revert Hfuel.
    generalize (String.length (rest st)) at 2 3 as fuel.
    intros fuel; revert st st' M.
    induction fuel as [|fuel IHf]; intros st st' M Hfuel H.
    + inversion M as [| | | | |g' r' st0|g' r' st0 st1 st2 M1 P M2| | | | |];
        subst; [exact H | lia].
    + inversion M as [| | | | |g' r' st0|g' r' st0 st1 st2 M1 P M2| | | | |];
        subst.
      * destruct g.
        -- match type of H with
           | match ?b with _ => _ end = _ => destruct b eqn:E
           end; [discriminate | exact H].
        -- destruct (k st') eqn:Ek; [discriminate | reflexivity].
      * assert (Hbody : forall kk,
                  rmatch ic r st kk = None -> kk st1 = None)
          by (intros kk Hkk; exact (IH _ _ Hkk _ M1)).
        apply Nat.ltb_lt in P as P'.
        destruct g.
        -- match type of H with
           | match ?b with _ => _ end = _ => destruct b eqn:E
           end; [discriminate|].
           apply Hbody in E; rewrite P' in E.
           eapply IHf; [exact M2 | lia | exact E].
        -- destruct (k st) eqn:Ek; [discriminate|].
           apply Hbody in H; rewrite P' in H.
           eapply IHf; [exact M2 | lia | exact H].
  - inversion M as [| | | | | | |n' r' st0 st1 M1| | | |]; subst.
    exact (IH _ _ H _ M1).
  - inversion M as [| | | | | | | |st0 Hp| | |]; subst. now rewrite Hp in H.
  - inversion M as [| | | | | | | | |st0 He| |]; subst.
    destruct st' as [pv s cs]; simpl in *.
    destruct He as [->| ->]; simpl in H; exact H.
  - inversion M as [| | | | | | | | | |c' a st0 Hp Hc|]; subst.
    now rewrite Hp, Hc in H.
  - inversion M as [| | | | | | | | | | |r' st0 st1 Hl]; subst.
    now rewrite Hl in H.
Qed.

(** What a match consumes is a prefix of the text before it. *)
Lemma Matches_suffix ic r st st' :
  Matches ic r st st' -> exists w, rest st = w +:+ rest st'.
Proof.
  induction 1 as [c a s' pv cs Hc|st|r1 r2 st st1 st2 _ [w1 H1] _ [w2 H2]
                 |r1 r2 st st' _ IH|r1 r2 st st' _ IH|g r st
                 |g r st st1 st2 _ [w1 H1] _ _ [w2 H2]
                 |n r st st1 _ [w H]|st _|st _|c a st _ _|r st st1 _];
    simpl in *.
  - now exists (String a "").
  - now exists "".
  - exists (w1 +:+ w2); now rewrite H1, H2, str_app_assoc.
  - exact IH.
  - exact IH.
  - now exists "".
  - exists (w1 +:+ w2); now rewrite H1, H2, str_app_assoc.
  - now exists w.
  - now exists "".
  - now exists "".
  - now exists "".
  - now exists "".
Qed.

(** A pattern without groups leaves the captures as they are. *)
Lemma Matches_nogroups ic r : forall st st',
  nogroups r = true -> Matches ic r st st' -> caps st' = caps st.
Proof.
  induction r as [c| |r1 IH1 r2 IH2|r1 IH1 r2 IH2|g r IH|n r IH| | |c|r IH];
    intros st st' Hng M; simpl in Hng.
  - inversion M; subst; reflexivity.
  - inversion M; subst; reflexivity.
  - apply andb_true_iff in Hng as [H1 H2].
    inversion M as [| |r1' r2' st0 st1 st2 M1 M2| | | | | | | | |]; subst.
    rewrite (IH2 _ _ H2 M2); now apply IH1.
  - apply andb_true_iff in Hng as [H1 H2].
    inversion M as [| | |r1' r2' st0 st1 M1|r1' r2' st0 st1 M1| | | | | | |];
      subst; [now apply IH1 | now apply IH2].
  - remember (RStar g r) as rs eqn:Ers.
    induction M as [| | | | |g' r' st0|g' r' st0 st1 st2 M1 _ P M2 IHM| | | | |];
      try discriminate; [reflexivity|].
    injection Ers as -> ->.
    rewrite (IHM eq_refl); now apply IH.
  - discriminate.
  - inversion M; subst; reflexivity.
  - inversion M; subst; reflexivity.
  - inversion M; subst; reflexivity.
  - inversion M as [| | | | | | | | | | |r' st0 st1 Hl]; subst; simpl.
    apply rmatch_sound in Hl as (st2 & M2 & [= <-]).
    now apply IH.
Qed.

(** Capture lookup after a group-free tail. *)
Lemma all_chars_impl (P Q : ascii -> bool) (s : string) :
  (forall c, P c = true -> Q c = true) ->
  Py.all_chars P s = true -> Py.all_chars Q s = true.
Proof.
  intros HPQ; induction s as [|c s IH]; simpl; [reflexivity|].
  intros H; apply andb_true_iff in H as [Hc Hs].
  now rewrite (HPQ _ Hc), IH.
Qed.

(** A repeated character class consumes characters of the class. *)
Lemma Matches_star_class ic g c st st' :
  Matches ic (RStar g (RClass c)) st st' ->
  exists w, rest st = w +:+ rest st'
            /\ Py.all_chars (cls_match ic c) w = true
            /\ caps st' = caps st.
Proof.
  intros M; remember (RStar g (RClass c)) as rs eqn:Ers.
  induction M as [| | | | |g' r' st0|g' r' st0 st1 st2 M1 _ P M2 IHM| | | | |];
    try discriminate.
  - now exists "".
  - injection Ers as -> ->.
    destruct (IHM eq_refl) as (w & Hw & Hall & Hc).
    inversion M1 as [c' a s' pv cs Hca| | | | | | | | | | |]; subst; simpl in *.
    exists (String a w); simpl. rewrite Hw, Hca, Hall. auto.
Qed.

Lemma Matches_plus_class ic g c st st' :
  Matches ic (plus g (RClass c)) st st' ->
  exists w, rest st = w +:+ rest st'
            /\ Py.all_chars (cls_match ic c) w = true
            /\ w <> ""
            /\ caps st' = caps st.
Proof.
  unfold plus; intros M.
  inversion M as [| |r1' r2' st0 st1 st2 M1 M2| | | | | | | | |]; subst.
  apply Matches_star_class in M2 as (w & Hw & Hall & Hc).
  inversion M1 as [c' a s' pv cs Hca| | | | | | | | | | |]; subst; simpl in *.
  exists (String a w); simpl. rewrite Hw, Hca, Hall.
  repeat split; auto; discriminate.
Qed.

(** A literal consumes a text equal to it, up to case under
    [IGNORECASE]. *)
Lemma Matches_lit ic s0 : forall st st',
  Matches ic (lit s0) st st' ->
  exists w, rest st = w +:+ rest st'
            /\ caps st' = caps st
            /\ (if ic then Py.lower w = Py.lower s0 else w = s0).
Proof.
  induction s0 as [|c s0 IH]; intros st st' M; simpl in M.
  - inversion M; subst. exists ""; destruct ic; auto.
  - destruct s0 as [|d s0].
    + inversion M as [c' a s' pv cs Hca| | | | | | | | | | |]; subst; simpl in *.
      exists (String a ""); repeat split; auto.
      destruct ic; simpl in *.
      * apply Ascii.eqb_eq in Hca; now rewrite Hca.
      * apply Ascii.eqb_eq in Hca; now rewrite Hca.
    + inversion M as [| |r1' r2' st0 st1 st2 M1 M2| | | | | | | | |]; subst.
      apply IH in M2 as (w & Hw & Hc & Heq).
      inversion M1 as [c' a s' pv cs Hca| | | | | | | | | | |]; subst;
        simpl in *.
      exists (String a w); simpl; rewrite Hw; repeat split; auto.
      destruct ic; simpl in *.
      * apply Ascii.eqb_eq in Hca. rewrite Hca. now f_equal.
      * apply Ascii.eqb_eq in Hca. now rewrite Hca, Heq.
Qed.

(** Every attempt that succeeds is a match of the expression. *)
Lemma match_at_sound p pv s adv n cs :
  match_at p pv s adv = Some (n, cs) ->
  exists st', Matches (p_icase p) (p_re p) (MState pv s []) st'
              /\ cs = caps st'
              /\ n = String.length s - String.length (rest st').
Proof.
  unfold match_at.
  destruct (rmatch _ _ _ _) as [st1|] eqn:E; [|discriminate].
  intros [= <- <-].
  apply rmatch_sound in E as (st' & M & Hk).
  destruct (adv && _); [discriminate|].
  injection Hk as ->. now exists st1.
Qed.

(** Every match found by a scan is an attempt on a tail of the text. *)
Lemma finditer_aux_in p m : forall s pv skip pos,
  In m (finditer_aux p pv s skip pos) ->
  exists pre s' pv' adv n,
    s = pre +:+ s' /\ match_at p pv' s' adv = Some (n, m_caps m).
Proof.
  induction s as [|a s IH]; intros pv skip pos Hin.
  - destruct skip; simpl in Hin; [|contradiction].
    destruct (match_at p pv "" false) as [[[|n] cs]|] eqn:E;
      simpl in Hin; try contradiction.
    + destruct Hin as [<-|Hin].
      * exists "", "", pv, false, 0; auto.
      * destruct (match_at p pv "" true) as [[[|n] cs2]|] eqn:E2;
          simpl in Hin; try contradiction.
        destruct Hin as [<-|[]].
        exists "", "", pv, true, (S n); auto.
    + destruct Hin as [<-|[]].
      exists "", "", pv, false, (S n); auto.
  - assert (Htail : forall pv' skip' pos',
              In m (finditer_aux p pv' s skip' pos') ->
              exists pre s' pv'' adv n,
                String a s = pre +:+ s'
                /\ match_at p pv'' s' adv = Some (n, m_caps m)).
    { intros pv' skip' pos' H.
      destruct (IH _ _ _ H) as (pre & s' & pv'' & adv & n & -> & Hm).
      exists (String a pre), s', pv'', adv, n; auto. }
    destruct skip; simpl in Hin; [|(eapply Htail; eassumption)].
    destruct (match_at p pv (String a s) false) as [[[|n] cs]|] eqn:E;
      simpl in Hin.
    + destruct Hin as [<-|Hin].
      * exists "", (String a s), pv, false, 0; auto.
      * destruct (match_at p pv (String a s) true) as [[[|n] cs2]|] eqn:E2;
          simpl in Hin; try (eapply Htail; eassumption).
        destruct Hin as [<-|Hin]; [|(eapply Htail; eassumption)].
        exists "", (String a s), pv, true, (S n); auto.
    + destruct Hin as [<-|Hin]; [|(eapply Htail; eassumption)].
      exists "", (String a s), pv, false, (S n); auto.
    + (eapply Htail; eassumption).
Qed.

Lemma search_from_sound p m : forall s pv pos,
  search_from p pv s pos = Some m ->
  exists pre s' pv' n,
    s = pre +:+ s' /\ match_at p pv' s' false = Some (n, m_caps m).
Proof.
  induction s as [|a s IH]; intros pv pos H; simpl in H.
  - destruct (match_at p pv "" false) as [[n cs]|] eqn:E; [|discriminate].
    injection H as <-. exists "", "", pv, n; auto.
  - destruct (match_at p pv (String a s) false) as [[n cs]|] eqn:E.
    + injection H as <-. exists "", (String a s), pv, n; auto.
    + apply IH in H as (pre & s' & pv' & n & -> & Hm).
      exists (String a pre), s', pv', n; auto.
Qed.

(** ** Substrings *)

Lemma substring_refl (s : string) : Spec.is_substring s s.
Proof. exists "", ""; now rewrite str_app_empty_r. Qed.

Lemma substring_trans (a b c : string) :
  Spec.is_substring a b -> Spec.is_substring b c -> Spec.is_substring a c.
Proof.
  intros (p1 & q1 & ->) (p2 & q2 & ->).
  exists (p2 +:+ p1), (q1 +:+ q2). now rewrite !str_app_assoc.
Qed.

Lemma substring_empty (s : string) : Spec.is_substring "" s.
Proof. now exists "", s. Qed.

Lemma substring_app_r (a w s : string) :
  Spec.is_substring a s -> Spec.is_substring a (w +:+ s).
Proof.
  intros (p & q & ->). exists (w +:+ p), q. now rewrite !str_app_assoc.
Qed.

Lemma substring_app_l (a w s : string) :
  Spec.is_substring a s -> Spec.is_substring a (s +:+ w).
Proof.
  intros (p & q & ->). exists p, (q +:+ w). now rewrite !str_app_assoc.
Qed.

Lemma substring_take (n : nat) (s : string) : Spec.is_substring (Py.take n s) s.
Proof.
  exists "", (Py.drop n s). simpl. now rewrite take_drop.
Qed.

Lemma contains_iff_substring (a b : string) :
  Py.contains a b = true <-> Spec.is_substring a b.
Proof. apply contains_spec. Qed.

Lemma rev_involutive (s : string) : Py.rev (Py.rev s) = s.
Proof.
  induction s as [|c s IH]; [reflexivity|].
  rewrite rev_cons, str_rev_app, IH. reflexivity.
Qed.

Lemma lstrip_suffix (s : string) : exists pre, s = pre +:+ Py.lstrip s.
Proof.
  induction s as [|c s [pre IH]]; simpl.
  - now exists "".
  - destruct (Py.isspace c).
    + exists (String c pre). simpl. now rewrite <- IH.
    + now exists "".
Qed.

Lemma rstrip_prefix (s : string) : exists post, s = Py.rstrip s +:+ post.
Proof.
  unfold Py.rstrip.
  destruct (lstrip_suffix (Py.rev s)) as [pre H].
  exists (Py.rev pre).
  rewrite <- str_rev_app, <- H. now rewrite rev_involutive.
Qed.

(** The stripped text is a part of the text. *)
Lemma substring_strip (s : string) : Spec.is_substring (Py.strip s) s.
Proof.
  unfold Py.strip.
  destruct (lstrip_suffix s) as [pre Hpre].
  destruct (rstrip_prefix (Py.lstrip s)) as [post Hpost].
  exists pre, post. now rewrite <- Hpost.
Qed.

(** ** Captured groups are parts of the text *)

Lemma caps_within_refl old text : caps_within old text old.
Proof. intros n t H; now left. Qed.

Lemma caps_within_step old text w text' mid new :
  text = w +:+ text' ->
  caps_within old text mid -> caps_within mid text' new ->
  caps_within old text new.
Proof.
  intros -> H1 H2 n t Hin.
  destruct (H2 _ _ Hin) as [H|H]; [now apply H1|].
  right; now apply substring_app_r.
Qed.

Lemma Matches_caps_within ic r : forall st st',
  Matches ic r st st' -> caps_within (caps st) (rest st) (caps st').
Proof.
  induction r as [c| |r1 IH1 r2 IH2|r1 IH1 r2 IH2|g r IH|n r IH| | |c|r IH];
    intros st st' M.
  - inversion M; subst; apply caps_within_refl.
  - inversion M; subst; apply caps_within_refl.
  - inversion M as [| |r1' r2' st0 st1 st2 M1 M2| | | | | | | | |]; subst.
    destruct (Matches_suffix _ _ _ _ M1) as [w Hw].
    eapply caps_within_step; [exact Hw | apply (IH1 _ _ M1) | apply (IH2 _ _ M2)].
  - inversion M as [| | |r1' r2' st0 st1 M1|r1' r2' st0 st1 M1| | | | | | |];
      subst; [apply (IH1 _ _ M1) | apply (IH2 _ _ M1)].
  - remember (RStar g r) as rs eqn:Ers.
    induction M as [| | | | |g' r' st0|g' r' st0 st1 st2 M1 _ P M2 IHM| | | | |];
      try discriminate; [apply caps_within_refl|].
    injection Ers as -> ->.
    destruct (Matches_suffix _ _ _ _ M1) as [w Hw].
    eapply caps_within_step; [exact Hw | apply (IH _ _ M1) | now apply IHM].
  - inversion M as [| | | | | | |n' r' st0 st1 M1| | | |]; subst; simpl.
    intros m t [[= <- <-]|Hin].
    + right; apply substring_take.
    + now apply (IH _ _ M1).
  - inversion M; subst; apply caps_within_refl.
  - inversion M; subst; apply caps_within_refl.
  - inversion M; subst; apply caps_within_refl.
  - inversion M as [| | | | | | | | | | |r' st0 st1 Hl]; subst; simpl.
    apply rmatch_sound in Hl as (st2 & M2 & [= <-]).
    now apply IH.
Qed.

Lemma assoc_nat_in n l t : assoc_nat n l = Some t -> In (n, t) l.
Proof.
  induction l as [|[m s] l IH]; simpl; [discriminate|].
  destruct (Nat.eqb_spec n m) as [->|_].
  - intros [= ->]; now left.
  - intros H; right; now apply IH.
Qed.

(** Every group of an attempt on [s] is a part of [s]. *)
Lemma match_at_group_within p pv s adv len cs n :
  match_at p pv s adv = Some (len, cs) ->
  Spec.is_substring
    (match assoc_nat n cs with Some t => t | None => "" end) s.
Proof.
  intros H. apply match_at_sound in H as (st' & M & -> & _).
  destruct (assoc_nat n (caps st')) as [t|] eqn:E; [|apply substring_empty].
  apply assoc_nat_in in E.
  destruct (Matches_caps_within _ _ _ _ M _ _ E) as [[]|H]; exact H.
Qed.

Lemma match_group_within p s m n :
  match_ p s = Some m -> Spec.is_substring (group_or_empty n m) s.
Proof.
  unfold match_. destruct (match_at p None s false) as [[len cs]|] eqn:E;
    [|discriminate].
  intros [= <-]. unfold group_or_empty, group; simpl.
  eapply match_at_group_within; exact E.
Qed.

Lemma search_group_within p s m n :
  search p s = Some m -> Spec.is_substring (group_or_empty n m) s.
Proof.
  unfold search; intros H.
  apply search_from_sound in H as (pre & s' & pv' & len & -> & Hm).
  unfold group_or_empty, group.
  apply substring_app_r. eapply match_at_group_within; exact Hm.
Qed.

Lemma finditer_group_within p s m n :
  In m (finditer p s) -> Spec.is_substring (group_or_empty n m) s.
Proof.
  unfold finditer; intros H.
  apply finditer_aux_in in H as (pre & s' & pv' & adv & len & -> & Hm).
  unfold group_or_empty, group.
  apply substring_app_r. eapply match_at_group_within; exact Hm.
Qed.

(** X7: the treatment name extracted from a query is a part of the
    query: of the query itself for the "<name> BDT" form, of its
    lower-case form for the interrogative patterns. *)
Theorem extracted_name_within_query (query name : string) :
  pattern_matching.extract_treatment_from_query query = Some name ->
  Py.contains name query = true
  \/ Py.contains name (Py.lower query) = true.
Proof.
  unfold pattern_matching.extract_treatment_from_query.
  destruct (match_ pattern_matching.BDT_QUERY_PATTERN query) as [m|] eqn:E.
  - intros [= <-]; left. apply contains_iff_substring.
    eapply substring_trans; [apply substring_strip|].
    eapply match_group_within; exact E.
  - intros H; right. apply contains_iff_substring.
    revert H. generalize pattern_matching.extract_how_much_patterns.
    induction l as [|p l IH]; simpl; [discriminate|].
    destruct (search p (Py.lower query)) as [m|] eqn:Es; [|exact IH].
    intros [= <-].
    eapply substring_trans; [apply substring_strip|].
    eapply search_group_within; exact Es.
Qed.

Lemma extracted_name_within_query_witness :
  Py.contains "n x-ray" "How much does an X-Ray cost?" = true
  \/ Py.contains "n x-ray" (Py.lower "How much does an X-Ray cost?") = true.
Proof.
  apply extracted_name_within_query. vm_compute. reflexivity.
Defined.

(** ** Sequences and alternatives *)

Lemma Matches_seq_cons ic r rs st st' :
  Matches ic (seq (r :: rs)) st st' ->
  exists st1, Matches ic r st st1 /\ Matches ic (seq rs) st1 st'.
Proof.
  destruct rs as [|r' rs]; intros M.
  - exists st'; split; [exact M | constructor].
  - change (seq (r :: r' :: rs)) with (RSeq r (seq (r' :: rs))) in M.
    inversion M as [| |r1' r2' st0 st1 st2 M1 M2| | | | | | | | |]; subst.
    now exists st1.
Qed.

Lemma Matches_alt_cons ic r r' rs st st' :
  Matches ic (alt (r :: r' :: rs)) st st' ->
  Matches ic r st st' \/ Matches ic (alt (r' :: rs)) st st'.
Proof.
  change (alt (r :: r' :: rs)) with (RAlt r (alt (r' :: rs))).
  intros M.
  inversion M as [| | |r1' r2' st0 st1 M1|r1' r2' st0 st1 M1| | | | | | |];
    subst; [now left | now right].
Qed.

(** A match of one of several literals spells one of them, up to case
    when the pattern ignores it. *)
Lemma Matches_alt_lits ic (ws : list string) : forall st st',
  ws <> [] ->
  Matches ic (alt (map lit ws)) st st' ->
  exists w s0, In s0 ws
    /\ rest st = w +:+ rest st'
    /\ caps st' = caps st
    /\ (if ic then Py.lower w = Py.lower s0 else w = s0).
Proof.
  induction ws as [|a ws IH]; intros st st' Hne M; [congruence|].
  destruct ws as [|b ws].
  - apply Matches_lit in M as (w & Hw & Hc & Hl).
    exists w, a; repeat split; auto. now left.
  - change (map lit (a :: b :: ws)) with (lit a :: lit b :: map lit ws) in M.
    apply Matches_alt_cons in M as [M|M].
    + apply Matches_lit in M as (w & Hw & Hc & Hl).
      exists w, a; repeat split; auto. now left.
    + apply IH in M as (w & s0 & Hin & Hw & Hc & Hl); [|discriminate].
      exists w, s0; repeat split; auto. now right.
Qed.

Lemma contains_lower_between (kw a w b : string) :
  Py.lower w = kw -> Py.contains kw (Py.lower (a +:+ w +:+ b)) = true.
Proof.
  intros <-. rewrite !lower_app. apply contains_between.
Qed.

Ltac seq_step M st M1 :=
  apply Matches_seq_cons in M as (st & M1 & M).

Ltac in_list := simpl; repeat (first [left; reflexivity | right]).

(** A query of the "<name> BDT", "<name> Tk" or "<name> Taka" form has
    its currency word, in lower case, in the lower-cased query. *)
Lemma bdt_match_has_currency (query : string) :
  present (match_ pattern_matching.BDT_QUERY_PATTERN query) = true ->
  exists kw, In kw ["bdt"; "tk"; "taka"]
             /\ Py.contains kw (Py.lower query) = true.
Proof.
  unfold match_.
  destruct (match_at pattern_matching.BDT_QUERY_PATTERN None query false)
    as [[n cs]|] eqn:E; [intros _|discriminate].
  apply match_at_sound in E as (st' & M & _ & _).
  unfold pattern_matching.BDT_QUERY_PATTERN in M; cbn [p_re p_icase] in M.
  seq_step M s1 M1. seq_step M s2 M2. seq_step M s3 M3. seq_step M s4 M4.
  seq_step M s5 M5.
  apply Matches_suffix in M1 as [w1 H1], M2 as [w2 H2], M3 as [w3 H3],
    M4 as [w4 H4], M as [w6 H6].
  cbn [rest] in H1.
  assert (Hq : exists kw w, In kw ["bdt"; "tk"; "taka"]
                 /\ Py.lower w = kw
                 /\ exists b, rest s4 = w +:+ b).
  { apply Matches_alt_cons in M5 as [M5|M5].
    - apply Matches_lit in M5 as (w & Hw & _ & Hl).
      exists "bdt", w; repeat split; [in_list | exact Hl | now exists (rest s5)].
    - apply Matches_alt_cons in M5 as [M5|M5].
      + inversion M5 as [| |r1' r2' st0 st1 st2 Ma Mb| | | | | | | | |]; subst.
        apply (Matches_lit true "Tk") in Ma as (w & Hw & _ & Hl).
        exists "tk", w; repeat split;
          [in_list | exact Hl | now exists (rest st1)].
      + apply Matches_lit in M5 as (w & Hw & _ & Hl).
        exists "taka", w; repeat split;
          [in_list | exact Hl | now exists (rest s5)]. }
  destruct Hq as (kw & w & Hin & Hl & b & Hb).
  exists kw; split; [exact Hin|].
  rewrite H1, H2, H3, H4, Hb.
  rewrite <- !str_app_assoc. rewrite str_app_assoc.
  now apply contains_lower_between.
Qed.

(** X4: a query of the "<name> BDT", "<name> Tk" or "<name> Taka" form is
    always a price query: the currency word it ends with is one of the
    price keywords. *)
Theorem bdt_form_is_price_query (query : string) :
  present (match_ pattern_matching.BDT_QUERY_PATTERN query) = true ->
  pattern_matching.is_price_query query = true.
Proof.
  intros H. apply bdt_match_has_currency in H as (kw & Hin & Hc).
  unfold pattern_matching.is_price_query.
  apply existsb_exists. exists kw; split; [|exact Hc].
  simpl in Hin. destruct Hin as [<-|[<-|[<-|[]]]]; in_list.
Qed.

Lemma bdt_form_is_price_query_witness :
  pattern_matching.is_price_query "X-Ray BDT" = true.
Proof. apply bdt_form_is_price_query. vm_compute. reflexivity. Defined.

(** ** Characters *)

Ltac each_char c :=
  destruct c as [[] [] [] [] [] [] [] []]; vm_compute; congruence.

Lemma decimal_not_space (c : ascii) :
  Py.isdecimal c = true -> Py.isspace c = false.
Proof. each_char c. Qed.

Lemma decimal_isdigit (c : ascii) :
  Py.isdecimal c = true -> Py.isdigit_char c = true.
Proof. each_char c. Qed.


Lemma all_chars_rev_onto P (s acc : string) :
  Py.all_chars P (Py.rev_onto s acc) = Py.all_chars P s && Py.all_chars P acc.
Proof.
  revert acc; induction s as [|c s IH]; intros acc; simpl; [reflexivity|].
  rewrite IH; simpl. now rewrite andb_assoc, (andb_comm (Py.all_chars P s) (P c)).
Qed.

Lemma all_chars_rev P (s : string) : Py.all_chars P (Py.rev s) = Py.all_chars P s.
Proof. unfold Py.rev; rewrite all_chars_rev_onto; simpl; apply andb_true_r. Qed.

Lemma all_chars_substring P (a s : string) :
  Spec.is_substring a s -> Py.all_chars P s = true -> Py.all_chars P a = true.
Proof.
  intros (p & q & ->). rewrite !all_chars_app.
  intros H; apply andb_true_iff in H as [_ H].
  now apply andb_true_iff in H as [H _].
Qed.

Lemma lstrip_nospace (s : string) :
  Py.all_chars (fun c => negb (Py.isspace c)) s = true -> Py.lstrip s = s.
Proof.
  destruct s as [|c s]; simpl; [reflexivity|].
  destruct (Py.isspace c); [discriminate | reflexivity].
Qed.

(** Text without white space is left alone by [strip]. *)
Lemma strip_nospace (s : string) :
  Py.all_chars (fun c => negb (Py.isspace c)) s = true -> Py.strip s = s.
Proof.
  intros H. unfold Py.strip, Py.rstrip.
  rewrite (lstrip_nospace s H), lstrip_nospace.
  - apply rev_involutive.
  - now rewrite all_chars_rev.
Qed.




Lemma take_matched (w r : string) :
  Py.take (String.length (w +:+ r) - String.length r) (w +:+ r) = w.
Proof.
  rewrite str_length_app.
  replace (String.length w + String.length r - String.length r)
    with (String.length w) by lia.
  apply take_app_length.
Qed.

(** A group that holds a run of one class of characters. *)
Lemma Matches_group_plus_class ic n g c st st' :
  Matches ic (RGroup n (plus g (RClass c))) st st' ->
  exists w, rest st = w +:+ rest st'
    /\ w <> ""
    /\ Py.all_chars (cls_match ic c) w = true
    /\ caps st' = (n, w) :: caps st.
Proof.
  intros M.
  inversion M as [| | | | | | |n' r' st0 st1 M1| | | |]; subst.
  apply Matches_plus_class in M1 as (w & Hw & Hall & Hne & Hc).
  exists w; cbn [rest caps]. rewrite Hw at 2 3. rewrite take_matched, Hc.
  auto.
Qed.

Lemma lower_fixed_words (ws : list string) (s0 w : string) :
  forallb (fun x => String.eqb (Py.lower x) x) ws = true ->
  In s0 ws -> Py.lower w = Py.lower s0 -> Py.lower w = s0.
Proof.
  intros Hall Hin ->.
  rewrite forallb_forall in Hall. specialize (Hall _ Hin).
  now apply String.eqb_eq in Hall.
Qed.

(** A match that passes through one of the lower-case words [ws] leaves
    that word in the lower-cased text. *)
Lemma word_in_text (ws : list string) (s a : string) st1 st2 :
  ws <> [] ->
  forallb (fun x => String.eqb (Py.lower x) x) ws = true ->
  Matches true (alt (map lit ws)) st1 st2 ->
  s = a +:+ rest st1 ->
  exists kw, In kw ws /\ Py.contains kw (Py.lower s) = true.
Proof.
  intros Hne Hlow M ->.
  apply Matches_alt_lits in M as (w & s0 & Hin & Hw & _ & Hl); [|exact Hne].
  exists s0; split; [exact Hin|].
  rewrite Hw. apply contains_lower_between.
  eapply lower_fixed_words; eauto.
Qed.

(** ** The price patterns *)

Lemma PRICE_PATTERN_match pv s adv n cs :
  match_at pattern_matching.PRICE_PATTERN pv s adv = Some (n, cs) ->
  (exists w, cs = [(1, w)] /\ w <> "" /\ Py.all_chars Py.isdecimal w = true)
  /\ exists kw, In kw ["cost"; "price"]
                /\ Py.contains kw (Py.lower s) = true.
Proof.
  intros E. apply match_at_sound in E as (st' & M & -> & _).
  unfold pattern_matching.PRICE_PATTERN in M; cbn [p_re p_icase] in M.
  seq_step M s1 M1. seq_step M s2 M2. cbn [seq] in M.
  split.
  - apply (Matches_alt_lits true ["cost"; "price"]) in M1
      as (_ & _ & _ & _ & Hc1 & _); [|discriminate].
    apply Matches_star_class in M2 as (_ & _ & _ & Hc2).
    apply Matches_group_plus_class in M as (w & _ & Hne & Hall & Hc).
    exists w. rewrite Hc, Hc2, Hc1. auto.
  - eapply (word_in_text ["cost"; "price"] s "");
      [discriminate | reflexivity | exact M1 | reflexivity].
Qed.




(** What [PRICE_PATTERN.findall] returns: runs of decimal digits. *)
Lemma findall_PRICE_PATTERN_digits (s item : string) :
  In item (findall1 pattern_matching.PRICE_PATTERN s) ->
  item <> "" /\ Py.all_chars Py.isdecimal item = true.
Proof.
  unfold findall1, finditer. intros H.
  apply in_map_iff in H as (m & <- & Hin).
  apply finditer_aux_in in Hin as (pre & s' & pv' & adv & n & _ & Hm).
  apply PRICE_PATTERN_match in Hm as [(w & Hc & Hne & Hall) _].
  unfold group_or_empty, group. rewrite Hc. simpl. auto.
Qed.

(** ** [text_processing.extract_price_info] *)

Lemma scan_matches_digits (items : list string) : forall price_data,
  (forall item, In item items -> Py.all_chars Py.isdecimal item = true) ->
  text_processing.scan_matches items price_data
  = if forallb two_long items then Ok price_data else Raise ValueError.
Proof.
  induction items as [|item items IH]; intros pd Hd; [reflexivity|].
  cbn [text_processing.scan_matches forallb].
  assert (Hi := Hd item (or_introl eq_refl)).
  destruct item as [|a [|b [|c item]]]; try reflexivity.
  cbn [text_processing.unpack_pair bind fst snd two_long String.length
       Nat.eqb andb].
  simpl in Hi. apply andb_true_iff in Hi as [Ha _].
  assert (Hs : Py.strip (String a "") = String a "").
  { apply strip_nospace. simpl. now rewrite (decimal_not_space a Ha). }
  rewrite Hs. unfold Py.isdigit; simpl.
  rewrite (decimal_isdigit a Ha). simpl.
  apply IH. intros x Hx; apply Hd; now right.
Qed.

(** X9: [text_processing.extract_price_info] never takes a price from the
    content.  It raises [ValueError] as soon as some document's content
    has a price (digits after "cost" or "price") that is not exactly two
    digits long, and otherwise returns the merge of the documents'
    [price_data] alone. *)
Theorem text_processing_extract_outcome (docs : list Document) :
  text_processing.extract_price_info docs
  = if forallb lengths_ok docs
    then Ok (fold_left (fun acc doc => text_processing.merge_metadata doc acc)
                       docs [])
    else Raise ValueError.
Proof.
  unfold text_processing.extract_price_info.
  generalize (@nil (string * string)).
  induction docs as [|doc docs IH]; intros price_data; [reflexivity|].
  cbn [text_processing.extract_price_info_from forallb fold_left].
  rewrite scan_matches_digits.
  - fold (lengths_ok doc). destruct (lengths_ok doc); simpl; [apply IH|].
    reflexivity.
  - intros item Hin. now apply findall_PRICE_PATTERN_digits in Hin.
Qed.

(** ** [document_utils.extract_price_info] *)

Lemma finditer_nil p s :
  (forall m, ~ In m (finditer p s)) -> finditer p s = [].
Proof.
  destruct (finditer p s) as [|m l]; [reflexivity|].
  intros H; destruct (H m); now left.
Qed.




(** ** [extract_price_from_text] *)



(** ** Substitution of single characters *)

Lemma drop_app_length (a b : string) : Py.drop (String.length a) (a +:+ b) = b.
Proof. induction a as [|c a IH]; simpl; [now destruct b | exact IH]. Qed.

Lemma match_at_class ic c pv s :
  match_at (Pattern (RClass c) ic) pv s false
  = match s with
    | String a _ => if cls_match ic c a then Some (1, []) else None
    | EmptyString => None
    end.
Proof.
  unfold match_at; cbn [p_re p_icase rmatch rest caps andb].
  destruct s as [|a s']; [reflexivity|].
  destruct (cls_match ic c a); [|reflexivity].
  cbn [rest caps String.length]. f_equal. f_equal. lia.
Qed.

(** Deleting the characters of a class: what [re.sub] with a
    one-character pattern and an empty replacement returns. *)
Lemma sub_build_class ic c (s : string) : forall pre mid pv pos,
  pos = String.length pre + String.length mid ->
  sub_build (fun _ => "") (pre +:+ mid +:+ s) (String.length pre)
    (finditer_aux (Pattern (RClass c) ic) pv s 0 pos)
  = mid +:+ keep_chars (fun a => negb (cls_match ic c a)) s.
Proof.
  induction s as [|a s IH]; intros pre mid pv pos Hpos.
  - cbn [finditer_aux]. rewrite match_at_class. cbn [sub_build keep_chars].
    now rewrite drop_app_length.
  - cbn [finditer_aux]. rewrite match_at_class. cbn [keep_chars].
    destruct (cls_match ic c a); cbn [negb].
    + cbn [sub_build m_start m_end]. subst pos.
      replace (String.length pre + String.length mid - String.length pre)
        with (String.length mid) by lia.
      rewrite drop_app_length, take_app_length.
      specialize (IH (pre +:+ mid +:+ String a "") "" (Some a)
                     (S (String.length pre + String.length mid))).
      rewrite !str_length_app in IH. cbn [String.length] in IH.
      replace (String.length pre + (String.length mid + 1))
        with (String.length pre + String.length mid + 1) in IH by lia.
      rewrite !str_app_assoc in IH. simpl in IH.
      rewrite IH by lia. reflexivity.
    + specialize (IH pre (mid +:+ String a "") (Some a) (S pos)).
      rewrite !str_app_assoc in IH. simpl in IH.
      rewrite IH; [reflexivity|].
      rewrite str_length_app. simpl. lia.
Qed.

Lemma sub_class_removed ic c (s : string) :
  sub (Pattern (RClass c) ic) (fun _ => "") s
  = keep_chars (fun a => negb (cls_match ic c a)) s.
Proof.
  unfold sub, finditer.
  exact (sub_build_class ic c s "" "" None 0 eq_refl).
Qed.

(** ** Kept characters *)

Lemma keep_chars_ext P Q (s : string) :
  (forall c, P c = Q c) -> keep_chars P s = keep_chars Q s.
Proof.
  intros H; induction s as [|c s IH]; simpl; [reflexivity|].
  now rewrite H, IH.
Qed.

Lemma keep_chars_all P (s : string) : Py.all_chars P (keep_chars P s) = true.
Proof.
  induction s as [|c s IH]; simpl; [reflexivity|].
  destruct (P c) eqn:E; simpl; [now rewrite E|exact IH].
Qed.

Lemma keep_chars_id P (s : string) :
  Py.all_chars P s = true -> keep_chars P s = s.
Proof.
  induction s as [|c s IH]; simpl; [reflexivity|].
  intros H; apply andb_true_iff in H as [-> Hs]. now rewrite IH.
Qed.

Lemma lower_id P (s : string) :
  (forall c, P c = true -> Py.lower_char c = c) ->
  Py.all_chars P s = true -> Py.lower s = s.
Proof.
  intros HP; induction s as [|c s IH]; simpl; [reflexivity|].
  intros H; apply andb_true_iff in H as [Hc Hs]. now rewrite (HP _ Hc), IH.
Qed.

Lemma lower_alnum_lower (c : ascii) :
  lower_alnum c = true -> Py.lower_char c = c.
Proof. each_char c. Qed.

Lemma lower_alnum_not_space (c : ascii) :
  lower_alnum c = true -> negb (Py.isspace c) = true.
Proof. each_char c. Qed.

Lemma utils_class_is_lower_alnum (c : ascii) :
  negb (cls_match false (CNot (COr (CRange "a" "z") (CRange "0" "9"))) c)
  = lower_alnum c.
Proof. each_char c. Qed.

(** ** [utils.normalize_treatment_name] *)

Lemma utils_normalize_eq (name : string) :
  utils.normalize_treatment_name name = keep_chars lower_alnum (Py.lower name).
Proof.
  unfold utils.normalize_treatment_name.
  rewrite sub_class_removed. apply keep_chars_ext.
  exact utils_class_is_lower_alnum.
Qed.

Lemma utils_normalize_alnum (name : string) :
  Py.all_chars lower_alnum (utils.normalize_treatment_name name) = true.
Proof. rewrite utils_normalize_eq. apply keep_chars_all. Qed.

(** X21: [utils.normalize_treatment_name] keeps the lower-case letters a to
    z and the digits of the lower-cased name, in order, and nothing
    else; normalising twice is normalising once. *)
Theorem utils_normalize_spec (name : string) :
  utils.normalize_treatment_name name = keep_chars lower_alnum (Py.lower name)
  /\ Py.all_chars lower_alnum (utils.normalize_treatment_name name) = true
  /\ utils.normalize_treatment_name (utils.normalize_treatment_name name)
     = utils.normalize_treatment_name name.
Proof.
  split; [apply utils_normalize_eq|]. split; [apply utils_normalize_alnum|].
  rewrite (utils_normalize_eq (utils.normalize_treatment_name name)).
  rewrite (lower_id lower_alnum) by
    (auto using lower_alnum_lower, utils_normalize_alnum).
  apply keep_chars_id, utils_normalize_alnum.
Qed.

(** ** Words of a text without white space *)

Lemma split_ws_aux_nospace (s : string) : forall cur,
  Py.all_chars (fun c => negb (Py.isspace c)) s = true ->
  Py.split_ws_aux s cur
  = match Py.rev_onto s cur with
    | EmptyString => []
    | _ => [Py.rev (Py.rev_onto s cur)]
    end.
Proof.
  induction s as [|c s IH]; intros cur H; simpl in *.
  - destruct cur; reflexivity.
  - apply andb_true_iff in H as [Hc Hs].
    apply negb_true_iff in Hc. rewrite Hc. now apply IH.
Qed.

Lemma rev_empty (s : string) : Py.rev s = "" -> s = "".
Proof.
  intros H. rewrite <- (rev_involutive s), H. reflexivity.
Qed.

Lemma split_ws_nospace (s : string) :
  Py.all_chars (fun c => negb (Py.isspace c)) s = true ->
  Py.split_ws s = match s with EmptyString => [] | _ => [s] end.
Proof.
  intros H. unfold Py.split_ws. rewrite split_ws_aux_nospace by exact H.
  fold (Py.rev s). rewrite rev_involutive.
  destruct s as [|c s]; [reflexivity|].
  destruct (Py.rev (String c s)) eqn:E; [|reflexivity].
  apply rev_empty in E. discriminate.
Qed.

Lemma words_disjoint (a b : string) :
  Py.all_chars (fun c => negb (Py.isspace c)) a = true ->
  Py.all_chars (fun c => negb (Py.isspace c)) b = true ->
  a <> b ->
  pattern_matching.words_of a ∩ pattern_matching.words_of b = ∅.
Proof.
  intros Ha Hb Hne. unfold pattern_matching.words_of.
  rewrite (split_ws_nospace a Ha), (split_ws_nospace b Hb).
  apply elem_of_equiv_empty_L. intros x [H1 H2]%elem_of_intersection.
  apply elem_of_list_to_set in H1, H2.
  destruct a as [|c a], b as [|d b];
    try (now apply elem_of_nil in H1); try (now apply elem_of_nil in H2).
  apply list_elem_of_singleton in H1, H2. congruence.
Qed.

(** X22: in [utils.treatments_match] the word-overlap rule never decides:
    the normalised names hold no white space, so each is a single word,
    and the result is whether one normalised name is a part of the
    other. *)
Theorem utils_treatments_match_rule (query treatment : string) :
  utils.treatments_match query treatment
  = Py.contains (utils.normalize_treatment_name query)
                (utils.normalize_treatment_name treatment)
    || Py.contains (utils.normalize_treatment_name treatment)
                   (utils.normalize_treatment_name query).
Proof.
  unfold utils.treatments_match.
  set (nq := utils.normalize_treatment_name query).
  set (nt := utils.normalize_treatment_name treatment).
  destruct (String.eqb_spec nq nt) as [E|E].
  - rewrite E. assert (H : Py.contains nt nt = true)
      by (apply contains_iff_substring, substring_refl).
    now rewrite H.
  - destruct (Py.contains nq nt || Py.contains nt nq); [reflexivity|].
    rewrite words_disjoint; [reflexivity| | |exact E].
    + eapply all_chars_impl; [exact lower_alnum_not_space|].
      apply utils_normalize_alnum.
    + eapply all_chars_impl; [exact lower_alnum_not_space|].
      apply utils_normalize_alnum.
Qed.

(** ** Runs of white space *)

Lemma star_space_greedy (s : string) : forall pv cs,
  exists pv',
    rmatch false (RStar true (RClass CSpace)) (MState pv s cs)
      (fun st => Some st)
    = Some (MState pv' (Py.lstrip s) cs).
Proof.
  induction s as [|a s IH]; intros pv cs.
  - exists pv. reflexivity.
  - destruct (IH (Some a) cs) as [pv' E].
    cbn [rmatch rest caps String.length cls_match Py.lstrip] in E |- *.
    destruct (Py.isspace a).
    + rewrite (proj2 (Nat.ltb_lt _ _) (Nat.lt_succ_diag_r _)).
      rewrite E. now exists pv'.
    + now exists pv.
Qed.

Lemma lstrip_length (s : string) :
  String.length (Py.lstrip s) <= String.length s.
Proof.
  induction s as [|a s IH]; simpl; [lia|].
  destruct (Py.isspace a); simpl; lia.
Qed.

Lemma match_at_spaces pv (s : string) :
  match_at (Pattern pattern_matching.spaces1 false) pv s false
  = match s with
    | String a s' =>
        if Py.isspace a
        then Some (S (String.length s' - String.length (Py.lstrip s')), [])
        else None
    | EmptyString => None
    end.
Proof.
  unfold match_at, pattern_matching.spaces1, plus, pattern_matching.space.
  cbn [p_re p_icase].
  change (rmatch false (RSeq (RClass CSpace) (RStar true (RClass CSpace)))
            (MState pv s [])
            (fun st' => if false && (String.length (rest st') =? String.length s)
                        then None else Some st'))
    with (match s with
          | String a s' =>
              if Py.isspace a
              then rmatch false (RStar true (RClass CSpace))
                     (MState (Some a) s' []) (fun st => Some st)
              else None
          | EmptyString => None
          end).
  destruct s as [|a s']; [reflexivity|].
  destruct (Py.isspace a); [|reflexivity].
  destruct (star_space_greedy s' (Some a) []) as [pv' ->].
  cbn [rest caps String.length]. f_equal. f_equal.
  pose proof (lstrip_length s'). lia.
Qed.

(** Passing over the rest of a match. *)
Lemma finditer_aux_skip p (run : string) : forall s pv pos,
  exists pv',
    finditer_aux p pv (run +:+ s) (String.length run) pos
    = finditer_aux p pv' s 0 (pos + String.length run).
Proof.
  induction run as [|a run IH]; intros s pv pos.
  - exists pv. simpl. now rewrite Nat.add_0_r.
  - destruct (IH s (Some a) (S pos)) as [pv' E].
    exists pv'. simpl. rewrite E. f_equal. lia.
Qed.

Lemma lstrip_split (s : string) :
  exists run, s = run +:+ Py.lstrip s
    /\ String.length run = String.length s - String.length (Py.lstrip s).
Proof.
  destruct (lstrip_suffix s) as [run H]. exists run; split; [exact H|].
  pose proof (f_equal String.length H) as L.
  rewrite str_length_app in L. lia.
Qed.

Lemma collapse_ws_run (s : string) :
  collapse_ws true s = collapse_ws false (Py.lstrip s).
Proof.
  induction s as [|a s IH]; simpl; [reflexivity|].
  destruct (Py.isspace a) eqn:E; [exact IH|]. simpl. now rewrite E.
Qed.

(** Replacing every run of white space by one space: what [re.sub] with
    the pattern [\s+] and the replacement [" "] returns. *)
Lemma sub_build_spaces (n : nat) : forall s pre mid pv pos,
  String.length s <= n ->
  pos = String.length pre + String.length mid ->
  sub_build (fun _ => " ") (pre +:+ mid +:+ s) (String.length pre)
    (finditer_aux (Pattern pattern_matching.spaces1 false) pv s 0 pos)
  = mid +:+ collapse_ws false s.
Proof.
  induction n as [|n IH]; intros s pre mid pv pos Hn Hpos.
  - destruct s; [|simpl in Hn; lia].
    cbn [finditer_aux]. rewrite match_at_spaces. cbn [sub_build collapse_ws].
    now rewrite drop_app_length.
  - destruct s as [|a s].
    { cbn [finditer_aux]. rewrite match_at_spaces. cbn [sub_build collapse_ws].
      now rewrite drop_app_length. }
    cbn [finditer_aux]. rewrite match_at_spaces. cbn [collapse_ws].
    destruct (Py.isspace a).
    + destruct (lstrip_split s) as (run & Hrun & Hlen).
      rewrite <- Hlen.
      destruct (finditer_aux_skip (Pattern pattern_matching.spaces1 false)
                  run (Py.lstrip s) (Some a) (S pos)) as [pv' E].
      rewrite Hrun at 2. rewrite E.
      cbn [sub_build m_start m_end]. subst pos.
      replace (String.length pre + String.length mid - String.length pre)
        with (String.length mid) by lia.
      rewrite drop_app_length, take_app_length.
      specialize (IH (Py.lstrip s) (pre +:+ mid +:+ String a run) ""
                     pv' (S (String.length pre + String.length mid)
                          + String.length run)).
      rewrite !str_length_app in IH. cbn [String.length] in IH.
      replace (String.length pre + (String.length mid + S (String.length run)))
        with (String.length pre + String.length mid
              + S (String.length run)) in IH by lia.
      rewrite !str_app_assoc in IH. simpl in IH.
      rewrite <- Hrun in IH.
      change (S (String.length pre + String.length mid) + String.length run)
        with (S (String.length pre + String.length mid + String.length run)).
      rewrite IH; [|pose proof (lstrip_length s); simpl in Hn; lia|lia].
      now rewrite collapse_ws_run.
    + specialize (IH s pre (mid +:+ String a "") (Some a) (S pos)).
      rewrite !str_app_assoc in IH. simpl in IH.
      rewrite IH; [reflexivity|simpl in Hn; lia|].
      rewrite str_length_app. simpl. lia.
Qed.

Lemma sub_spaces_collapsed (s : string) :
  sub (Pattern pattern_matching.spaces1 false) (fun _ => " ") s
  = collapse_ws false s.
Proof.
  unfold sub, finditer.
  exact (sub_build_spaces (String.length s) s "" "" None 0 (le_n _) eq_refl).
Qed.

(** ** Collapsed text *)

Lemma keep_chars_all_chars P Q (s : string) :
  Py.all_chars P s = true -> Py.all_chars P (keep_chars Q s) = true.
Proof.
  induction s as [|c s IH]; simpl; [reflexivity|].
  intros H; apply andb_true_iff in H as [Hc Hs].
  destruct (Q c); simpl; [rewrite Hc|]; now apply IH.
Qed.

Lemma collapse_ws_all_chars P b (s : string) :
  P " "%char = true ->
  Py.all_chars P s = true -> Py.all_chars P (collapse_ws b s) = true.
Proof.
  intros Hsp. revert b; induction s as [|c s IH]; intros b; simpl;
    [reflexivity|].
  intros H; apply andb_true_iff in H as [Hc Hs].
  destruct (Py.isspace c); [destruct b|]; simpl;
    rewrite ?Hsp, ?Hc; now apply IH.
Qed.

Lemma collapse_ws_single_spaced b (s : string) :
  single_spaced b (collapse_ws b s) = true.
Proof.
  revert b; induction s as [|c s IH]; intros b; simpl; [reflexivity|].
  destruct (Py.isspace c) eqn:E; [destruct b|]; simpl.
  - apply IH.
  - change (Py.isspace " ") with true. cbv iota.
    rewrite IH. reflexivity.
  - rewrite E. apply IH.
Qed.

Lemma collapse_ws_id b (s : string) :
  single_spaced b s = true -> collapse_ws b s = s.
Proof.
  revert b; induction s as [|c s IH]; intros b; simpl; [reflexivity|].
  destruct (Py.isspace c).
  - intros H. apply andb_true_iff in H as [H Hs].
    apply andb_true_iff in H as [Hc Hb].
    apply Ascii.eqb_eq in Hc. apply negb_true_iff in Hb. subst.
    now rewrite (IH true Hs).
  - intros H. now rewrite (IH false H).
Qed.

Lemma single_spaced_weaken b (s : string) :
  single_spaced b s = true -> single_spaced false s = true.
Proof.
  destruct s as [|c s]; simpl; [reflexivity|].
  destruct (Py.isspace c); [|auto].
  intros H. apply andb_true_iff in H as [H Hs].
  apply andb_true_iff in H as [Hc _]. now rewrite Hc, Hs.
Qed.

Lemma single_spaced_app b (x y : string) :
  single_spaced b (x +:+ y) = true ->
  single_spaced b x = true /\ single_spaced false y = true.
Proof.
  revert b; induction x as [|c x IH]; intros b; simpl.
  - intros H; split; [reflexivity | now apply single_spaced_weaken in H].
  - destruct (Py.isspace c).
    + intros H. apply andb_true_iff in H as [H Hs].
      destruct (IH true Hs) as [H1 H2]. now rewrite H, H1.
    + apply IH.
Qed.

Lemma single_spaced_substring (a s : string) :
  Spec.is_substring a s ->
  single_spaced false s = true -> single_spaced false a = true.
Proof.
  intros (p & q & ->) H.
  apply single_spaced_app in H as [_ H].
  now apply single_spaced_app in H as [H _].
Qed.

(** ** [strip] applied twice *)

Lemma lstrip_no_leading (s : string) : no_leading_space (Py.lstrip s).
Proof.
  induction s as [|c s IH]; simpl; [exact I|].
  destruct (Py.isspace c) eqn:E; [exact IH | exact E].
Qed.

Lemma lstrip_id (s : string) : no_leading_space s -> Py.lstrip s = s.
Proof. destruct s as [|c s]; simpl; [reflexivity|]. now intros ->. Qed.

Lemma rstrip_no_leading (s : string) :
  no_leading_space s -> no_leading_space (Py.rstrip s).
Proof.
  destruct (rstrip_prefix s) as [post H].
  destruct (Py.rstrip s) as [|c r]; [intros _; exact I|].
  rewrite H. simpl. auto.
Qed.

Lemma rstrip_idem (s : string) : Py.rstrip (Py.rstrip s) = Py.rstrip s.
Proof.
  unfold Py.rstrip. rewrite rev_involutive.
  now rewrite (lstrip_id _ (lstrip_no_leading _)).
Qed.

Lemma strip_idem (s : string) : Py.strip (Py.strip s) = Py.strip s.
Proof.
  unfold Py.strip.
  rewrite (lstrip_id (Py.rstrip (Py.lstrip s))).
  - apply rstrip_idem.
  - apply rstrip_no_leading, lstrip_no_leading.
Qed.

(** ** [pattern_matching.normalize_treatment_name] *)

Lemma lower_char_lowered (c : ascii) : lowered (Py.lower_char c) = true.
Proof. each_char c. Qed.

Lemma lowered_lower (c : ascii) : lowered c = true -> Py.lower_char c = c.
Proof. unfold lowered. apply Ascii.eqb_eq. Qed.

Lemma lower_all_lowered (s : string) : Py.all_chars lowered (Py.lower s) = true.
Proof.
  induction s as [|c s IH]; simpl; [reflexivity|].
  now rewrite lower_char_lowered, IH.
Qed.

Lemma pm_class_is_word_or_space (c : ascii) :
  negb (cls_match false (CNot (COr CWord CSpace)) c) = word_or_space c.
Proof. unfold word_or_space; simpl. apply negb_involutive. Qed.

Lemma normalize_eq (t : string) :
  pattern_matching.normalize_treatment_name t
  = Py.strip (collapse_ws false (keep_chars word_or_space (Py.lower t))).
Proof.
  unfold pattern_matching.normalize_treatment_name.
  rewrite sub_class_removed, sub_spaces_collapsed.
  now rewrite (keep_chars_ext _ _ _ pm_class_is_word_or_space).
Qed.

Lemma normalized_shape (t : string) :
  let y := Py.strip (collapse_ws false
                       (keep_chars word_or_space (Py.lower t))) in
  Py.lower y = y
  /\ Py.all_chars word_or_space y = true
  /\ single_spaced false y = true.
Proof.
  cbn zeta.
  set (z := collapse_ws false (keep_chars word_or_space (Py.lower t))).
  repeat split.
  - apply (lower_id lowered); [exact lowered_lower|].
    eapply all_chars_substring; [apply substring_strip|].
    apply collapse_ws_all_chars; [reflexivity|].
    apply keep_chars_all_chars, lower_all_lowered.
  - eapply all_chars_substring; [apply substring_strip|].
    apply collapse_ws_all_chars; [reflexivity|]. apply keep_chars_all.
  - eapply single_spaced_substring; [apply substring_strip|].
    apply collapse_ws_single_spaced.
Qed.

Lemma normalize_idem (t : string) :
  pattern_matching.normalize_treatment_name
    (pattern_matching.normalize_treatment_name t)
  = pattern_matching.normalize_treatment_name t.
Proof.
  rewrite !normalize_eq.
  destruct (normalized_shape t) as (Hlow & Hword & Hsp).
  rewrite Hlow, (keep_chars_id _ _ Hword), (collapse_ws_id _ _ Hsp).
  apply strip_idem.
Qed.

(** X1: [pattern_matching.normalize_treatment_name] lowers the name,
    drops what is neither a word character nor white space, turns every
    run of white space into one space and trims the ends.  The result is
    in lower case, holds only word characters and single spaces, and is
    left unchanged by a second normalisation. *)
Theorem normalize_treatment_name_spec (treatment : string) :
  let normalized := pattern_matching.normalize_treatment_name treatment in
  normalized
  = Py.strip (collapse_ws false
                (keep_chars word_or_space (Py.lower treatment)))
  /\ Py.lower normalized = normalized
  /\ Py.all_chars word_or_space normalized = true
  /\ single_spaced false normalized = true
  /\ Py.strip normalized = normalized
  /\ pattern_matching.normalize_treatment_name normalized = normalized.
Proof.
  cbn zeta. split; [apply normalize_eq|].
  rewrite normalize_idem, normalize_eq.
  destruct (normalized_shape treatment) as (Hlow & Hword & Hsp).
  repeat split; auto using strip_idem.
Qed.

(** X3: matching does not tell a name from its normal form. *)
Theorem treatments_match_normalized (treatment1 treatment2 : string) :
  pattern_matching.treatments_match
    (pattern_matching.normalize_treatment_name treatment1) treatment2
  = pattern_matching.treatments_match treatment1 treatment2
  /\ pattern_matching.treatments_match treatment1
       (pattern_matching.normalize_treatment_name treatment2)
     = pattern_matching.treatments_match treatment1 treatment2.
Proof.
  unfold pattern_matching.treatments_match.
  now rewrite !normalize_idem.
Qed.

(** ** Price queries in context *)

(** X6: a text that contains a price query is a price query. *)
Theorem is_price_query_context (before query after : string) :
  pattern_matching.is_price_query query = true ->
  pattern_matching.is_price_query (before +:+ query +:+ after) = true.
Proof.
  unfold pattern_matching.is_price_query.
  rewrite !existsb_exists. intros (kw & Hin & Hc).
  exists kw; split; [exact Hin|].
  apply contains_iff_substring. rewrite !lower_app.
  apply substring_app_r, substring_app_l.
  now apply contains_iff_substring.
Qed.

Lemma is_price_query_context_witness :
  pattern_matching.is_price_query ("Tell me the " +:+ "fee" +:+ " please")
  = true.
Proof. apply is_price_query_context. reflexivity. Defined.

(** ** Finding a match that exists *)

Lemma match_at_complete p pv s st' :
  Matches (p_icase p) (p_re p) (MState pv s []) st' ->
  match_at p pv s false <> None.
Proof.
  intros M. unfold match_at.
  destruct (rmatch _ _ _ _) as [st1|] eqn:E; [discriminate|].
  pose proof (rmatch_complete _ _ _ _ E _ M) as H. discriminate.
Qed.

(** A match that exists somewhere in the text is found by [search]. *)
Lemma search_from_complete p (s' : string) st' : forall pre pv pos,
  Matches (p_icase p) (p_re p) (MState (last_char pv pre) s' []) st' ->
  search_from p pv (pre +:+ s') pos <> None.
Proof.
  induction pre as [|a pre IH]; intros pv pos M.
  - simpl in M |- *. apply match_at_complete in M.
    destruct s'; simpl; destruct (match_at p pv _ false) as [[n cs]|];
      congruence.
  - simpl. destruct (match_at p pv _ false) as [[n cs]|]; [discriminate|].
    now apply IH.
Qed.

Lemma Matches_lit_exact (s0 : string) : forall pv rest0 cs,
  exists pv', Matches false (lit s0) (MState pv (s0 +:+ rest0) cs)
                (MState pv' rest0 cs).
Proof.
  induction s0 as [|c s0 IH]; intros pv rest0 cs.
  - exists pv. constructor.
  - destruct s0 as [|d s0].
    + exists (Some c). simpl. constructor. simpl. apply Ascii.eqb_refl.
    + destruct (IH (Some c) rest0 cs) as [pv' M].
      exists pv'.
      change (lit (String c (String d s0)))
        with (RSeq (RClass (CLit c)) (lit (String d s0))).
      econstructor; [|exact M].
      simpl. constructor. simpl. apply Ascii.eqb_refl.
Qed.

Lemma Matches_alt_lits_intro ic (ws : list string) (s0 : string) st st' :
  In s0 ws -> Matches ic (lit s0) st st' ->
  Matches ic (alt (map lit ws)) st st'.
Proof.
  induction ws as [|a ws IH]; intros Hin M; [destruct Hin|].
  destruct ws as [|b ws].
  - destruct Hin as [->|[]]. exact M.
  - change (alt (map lit (a :: b :: ws)))
      with (RAlt (lit a) (alt (map lit (b :: ws)))).
    destruct Hin as [->|Hin]; [now apply MAltL | apply MAltR; now apply IH].
Qed.

Lemma found_iff p s :
  pattern_matching.found p s = true <-> search p s <> None.
Proof.
  unfold pattern_matching.found, present.
  destruct (search p s); split; congruence.
Qed.

(** ** [has_price]: which documents count as price information *)

Lemma has_digit_split (s : string) :
  has_digit s = true <->
  exists pre d post, s = pre +:+ String d post /\ Py.isdecimal d = true.
Proof.
  unfold has_digit. rewrite negb_true_iff. split.
  - induction s as [|c s IH]; simpl; [discriminate|].
    destruct (Py.isdecimal c) eqn:E; simpl.
    + intros _. now exists "", c, s.
    + intros H. destruct (IH H) as (pre & d & post & -> & Hd).
      now exists (String c pre), d, post.
  - intros (pre & d & post & -> & Hd).
    rewrite all_chars_app. simpl. rewrite Hd. simpl. apply andb_false_r.
Qed.

Lemma number_found (s : string) :
  pattern_matching.found document_utils.number s = has_digit s.
Proof.
  apply eq_true_iff_eq. rewrite found_iff, has_digit_split. split.
  - intros H. destruct (search document_utils.number s) as [m|] eqn:E;
      [clear H|congruence].
    unfold search in E.
    apply search_from_sound in E as (pre & s' & pv' & n & -> & Hm).
    apply match_at_sound in Hm as (st' & M & _ & _).
    unfold document_utils.number in M; cbn [p_re p_icase] in M.
    seq_step M s1 M1.
    apply Matches_plus_class in M1 as (w & Hw & Hall & Hne & _).
    cbn [rest] in Hw. destruct w as [|d w]; [congruence|].
    simpl in Hall. apply andb_true_iff in Hall as [Hd _].
    exists pre, d, (w +:+ rest s1). split; [now rewrite Hw|exact Hd].
  - intros (pre & d & post & -> & Hd).
    unfold search.
    eapply (search_from_complete document_utils.number (String d post)
              (MState (Some d) post [])).
    unfold document_utils.number; cbn [p_re p_icase seq].
    econstructor.
    + unfold plus. econstructor; [|apply MStarStop].
      constructor. exact Hd.
    + apply MAltR. constructor.
Qed.

Lemma price_word_found (s : string) :
  pattern_matching.found document_utils.price_word s
  = existsb (fun kw => Py.contains kw s)
            ["price"; "cost"; "bdt"; "taka"; "tk"].
Proof.
  apply eq_true_iff_eq. rewrite found_iff, existsb_exists. split.
  - intros H. destruct (search document_utils.price_word s) as [m|] eqn:E;
      [clear H|congruence].
    unfold search in E.
    apply search_from_sound in E as (pre & s' & pv' & n & -> & Hm).
    apply match_at_sound in Hm as (st' & M & _ & _).
    unfold document_utils.price_word in M; cbn [p_re p_icase] in M.
    apply (Matches_alt_lits false ["price"; "cost"; "bdt"; "taka"; "tk"])
      in M as (w & s0 & Hin & Hw & _ & ->); [|discriminate].
    cbn [rest] in Hw. exists s0; split; [exact Hin|].
    rewrite Hw. apply contains_between.
  - intros (kw & Hin & Hc).
    apply contains_iff_substring in Hc as (pre & post & ->).
    unfold search.
    destruct (Matches_lit_exact kw (last_char None pre) post []) as [pv' M].
    eapply (search_from_complete document_utils.price_word (kw +:+ post)).
    unfold document_utils.price_word; cbn [p_re p_icase].
    apply (Matches_alt_lits_intro false
             ["price"; "cost"; "bdt"; "taka"; "tk"] kw); [exact Hin|exact M].
Qed.

(** X12: a document counts as price information exactly when its trimmed
    content has a decimal digit or has, in any letter case, one of the
    words "price", "cost", "bdt", "taka" and "tk". *)
Theorem has_price_spec (doc : Document) :
  let content := Py.strip (page_content doc) in
  document_utils.has_price doc
  = existsb (fun kw => Py.contains kw (Py.lower content))
            ["price"; "cost"; "bdt"; "taka"; "tk"]
    || has_digit content.
Proof.
  cbn zeta. unfold document_utils.has_price.
  now rewrite price_word_found, number_found.
Qed.

(** ** [utils.extract_price_info] *)

Lemma utils_PRICE_PATTERN_match pv s adv n cs :
  match_at utils.PRICE_PATTERN pv s adv = Some (n, cs) ->
  Py.contains "BDT" s = true \/ Py.contains "Tk" s = true.
Proof.
  intros E. apply match_at_sound in E as (st' & M & _ & _).
  unfold utils.PRICE_PATTERN in M; cbn [p_re p_icase] in M.
  seq_step M s1 M1. seq_step M s2 M2. seq_step M s3 M3. seq_step M s4 M4.
  cbn [seq] in M.
  apply Matches_suffix in M1 as [w1 H1], M2 as [w2 H2], M3 as [w3 H3],
    M4 as [w4 H4].
  cbn [rest] in H1.
  assert (Hs : exists a, s = a +:+ rest s4).
  { exists (w1 +:+ w2 +:+ w3 +:+ w4).
    now rewrite H1, H2, H3, H4, !str_app_assoc. }
  destruct Hs as [a ->].
  apply Matches_alt_cons in M as [M|M].
  - apply Matches_lit in M as (w & -> & _ & ->). left.
    apply contains_between.
  - inversion M as [| |r1' r2' st0 st1 st2 Ma Mb| | | | | | | | |]; subst.
    apply (Matches_lit false "Tk") in Ma as (w & -> & _ & ->). right.
    apply contains_between.
Qed.

(** X23: [utils.extract_price_info] takes nothing from a content that has
    neither "BDT" nor "Tk": for such documents the result is the merge
    of their [price_data] alone. *)
Theorem utils_extract_needs_currency (docs : list Document) :
  Forall (fun doc => Py.contains "BDT" (page_content doc) = false
                     /\ Py.contains "Tk" (page_content doc) = false) docs ->
  utils.extract_price_info docs
  = fold_left (fun acc doc => text_processing.merge_metadata doc acc) docs [].
Proof.
  unfold utils.extract_price_info. generalize (@nil (string * string)).
  induction docs as [|doc docs IH]; intros acc H; [reflexivity|].
  inversion H as [|d l [Hb Ht] Hrest]; subst.
  cbn [fold_left].
  assert (E : finditer utils.PRICE_PATTERN (page_content doc) = []).
  { apply finditer_nil. intros m Hin. unfold finditer in Hin.
    apply finditer_aux_in in Hin as (pre & s' & pv' & adv & n & Hs & Hm).
    apply utils_PRICE_PATTERN_match in Hm as [Hc|Hc];
      apply contains_iff_substring in Hc;
      apply (substring_app_r _ pre) in Hc; rewrite <- Hs in Hc;
      apply contains_iff_substring in Hc; congruence. }
  unfold findall2. rewrite E. cbn [map utils.scan_matches fold_left].
  now apply IH.
Qed.

Lemma utils_extract_needs_currency_witness :
  utils.extract_price_info
    [ {| page_content := "X-Ray costs 500 taka"; metadata := no_metadata |} ]
  = fold_left (fun acc doc => text_processing.merge_metadata doc acc)
      [ {| page_content := "X-Ray costs 500 taka"; metadata := no_metadata |} ]
      [].
Proof.
  apply utils_extract_needs_currency.
  constructor; [split; reflexivity | constructor].
Defined.

(** ** Direct price queries and price queries *)

Lemma Matches_suffix_of (s : string) ic r st st' :
  (exists a, s = a +:+ rest st) -> Matches ic r st st' ->
  exists a, s = a +:+ rest st'.
Proof.
  intros [a ->] M. apply Matches_suffix in M as [w ->].
  exists (a +:+ w). now rewrite str_app_assoc.
Qed.

Lemma exact_word_in_text (ws : list string) (s : string) st1 st2 :
  ws <> [] ->
  Matches false (alt (map lit ws)) st1 st2 ->
  (exists a, s = a +:+ rest st1) ->
  exists kw, In kw ws /\ Py.contains kw s = true.
Proof.
  intros Hne M [a ->].
  apply Matches_alt_lits in M as (w & s0 & Hin & Hw & _ & ->); [|exact Hne].
  exists s0; split; [exact Hin|]. rewrite Hw. apply contains_between.
Qed.

Lemma keyword_is_price_query (kw query : string) :
  In kw pattern_matching.PRICE_KEYWORDS ->
  Py.contains kw (Py.lower query) = true ->
  pattern_matching.is_price_query query = true.
Proof.
  intros Hin Hc. unfold pattern_matching.is_price_query.
  apply existsb_exists. now exists kw.
Qed.

Lemma contains_prefix_word (kw tail s : string) :
  Py.contains (kw +:+ tail) s = true -> Py.contains kw s = true.
Proof.
  rewrite !contains_iff_substring. intros (a & b & ->).
  exists a, (tail +:+ b). now rewrite !str_app_assoc.
Qed.

Ltac suffix_step H M := apply (Matches_suffix_of _ _ _ _ _ H) in M.

(** The words of the second, third and fourth interrogative patterns
    are price keywords. *)
Lemma what_is_the_price_match pv s adv n cs :
  match_at
    (Pattern
       (seq [lit "what"; pattern_matching.spaces1; alt [lit "is"; lit "are"];
             pattern_matching.spaces1; lit "the"; pattern_matching.spaces1;
             alt [lit "price"; lit "cost"; lit "fee"; lit "charge"]])
       false) pv s adv = Some (n, cs) ->
  exists kw, In kw ["price"; "cost"; "fee"; "charge"]
             /\ Py.contains kw s = true.
Proof.
  intros E. apply match_at_sound in E as (st' & M & _ & _).
  cbn [p_re p_icase] in M.
  assert (H0 : exists a, s = a +:+ rest (MState pv s [])) by now exists "".
  seq_step M s1 M1. seq_step M s2 M2. seq_step M s3 M3. seq_step M s4 M4.
  seq_step M s5 M5. seq_step M s6 M6. cbn [seq] in M.
  suffix_step H0 M1. suffix_step M1 M2. suffix_step M2 M3.
  suffix_step M3 M4. suffix_step M4 M5. suffix_step M5 M6.
  eapply (exact_word_in_text ["price"; "cost"; "fee"; "charge"]);
    [discriminate | exact M | exact M6].
Qed.

Lemma price_of_match pv s adv n cs :
  match_at
    (Pattern
       (seq [alt [lit "price"; lit "cost"; lit "fee"; lit "charge"];
             pattern_matching.spaces1; alt [lit "of"; lit "for"]])
       false) pv s adv = Some (n, cs) ->
  exists kw, In kw ["price"; "cost"; "fee"; "charge"]
             /\ Py.contains kw s = true.
Proof.
  intros E. apply match_at_sound in E as (st' & M & _ & _).
  cbn [p_re p_icase] in M.
  seq_step M s1 M1.
  eapply (exact_word_in_text ["price"; "cost"; "fee"; "charge"]);
    [discriminate | exact M1 | now exists ""].
Qed.

Lemma how_expensive_match pv s adv n cs :
  match_at
    (Pattern
       (seq [lit "how"; pattern_matching.spaces1;
             alt [lit "expensive"; lit "costly"]])
       false) pv s adv = Some (n, cs) ->
  exists kw, In kw ["expensive"; "cost"] /\ Py.contains kw s = true.
Proof.
  intros E. apply match_at_sound in E as (st' & M & _ & _).
  cbn [p_re p_icase] in M.
  assert (H0 : exists a, s = a +:+ rest (MState pv s [])) by now exists "".
  seq_step M s1 M1. seq_step M s2 M2. cbn [seq] in M.
  suffix_step H0 M1. suffix_step M1 M2.
  destruct (exact_word_in_text ["expensive"; "costly"] s _ _
              ltac:(discriminate) M M2) as (kw & Hin & Hc).
  destruct Hin as [<-|[<-|[]]].
  - exists "expensive"; split; [in_list | exact Hc].
  - exists "cost"; split; [in_list|].
    now apply (contains_prefix_word "cost" "ly").
Qed.

Lemma how_much_match pv s adv n cs :
  match_at
    (Pattern
       (seq [lit "how"; pattern_matching.spaces1; lit "much";
             pattern_matching.spaces1;
             opt (alt [lit "does"; lit "is"; lit "for"; lit "will";
                       lit "would"; lit "should"])])
       false) pv s adv = Some (n, cs) ->
  exists gap after,
    s = "how" +:+ gap +:+ "much" +:+ after
    /\ gap <> "" /\ Py.all_chars Py.isspace gap = true.
Proof.
  intros E. apply match_at_sound in E as (st' & M & _ & _).
  cbn [p_re p_icase] in M.
  seq_step M s1 M1. seq_step M s2 M2. seq_step M s3 M3.
  apply Matches_lit in M1 as (w1 & H1 & _ & ->).
  apply Matches_plus_class in M2 as (gap & H2 & Hall & Hne & _).
  apply Matches_lit in M3 as (w3 & H3 & _ & ->).
  cbn [rest] in H1.
  exists gap, (rest s3). rewrite H1, H2, H3. auto.
Qed.

Lemma search_found p (s : string) (P : string -> Prop) :
  (forall pre s', s = pre +:+ s' ->
     forall pv n cs, match_at p pv s' false = Some (n, cs) -> P s') ->
  pattern_matching.found p s = true ->
  exists pre s', s = pre +:+ s' /\ P s'.
Proof.
  intros H Hf. apply found_iff in Hf.
  destruct (search p s) as [m|] eqn:E; [clear Hf|congruence].
  unfold search in E.
  apply search_from_sound in E as (pre & s' & pv' & n & Hs & Hm).
  exists pre, s'; split; [exact Hs|]. eapply H; eauto.
Qed.

(** X5: a direct price query is a price query, with one exception: a
    "how much" question whose two words are separated by white space
    other than a single space. *)
Theorem direct_query_is_price_query (text : string) :
  pattern_matching.is_direct_price_query text = true ->
  pattern_matching.is_price_query text = true
  \/ exists before gap after,
       Py.lower text = before +:+ "how" +:+ gap +:+ "much" +:+ after
       /\ gap <> "" /\ gap <> " " /\ Py.all_chars Py.isspace gap = true.
Proof.
  unfold pattern_matching.is_direct_price_query.
  destruct text as [|c text]; [discriminate|].
  set (q := String c text).
  destruct (present (match_ pattern_matching.BDT_QUERY_PATTERN q)) eqn:Eb.
  { intros _. left.
    apply bdt_match_has_currency in Eb as (kw & Hin & Hc).
    apply (keyword_is_price_query kw); [|exact Hc].
    simpl in Hin. destruct Hin as [<-|[<-|[<-|[]]]]; in_list. }
  unfold pattern_matching.direct_how_much_patterns.
  cbn [existsb]. rewrite orb_false_r. intros H.
  apply orb_true_iff in H as [H|H]; [|apply orb_true_iff in H as [H|H];
    [|apply orb_true_iff in H as [H|H]]].
  - eapply search_found in H as (pre & s' & Hs & HP);
      [|intros pre s' _ pv n cs Hm; exact (how_much_match _ _ _ _ _ Hm)].
    destruct HP as (gap & after & -> & Hne & Hall).
    destruct (String.eqb_spec gap " ") as [->|Hgap].
    + left. apply (keyword_is_price_query "how much"); [in_list|].
      rewrite Hs. apply contains_iff_substring.
      exists pre, after. reflexivity.
    + right. exists pre, gap, after. auto.
  - left.
    eapply search_found in H as (pre & s' & Hs & HP);
      [|intros pre s' _ pv n cs Hm;
        exact (what_is_the_price_match _ _ _ _ _ Hm)].
    destruct HP as (kw & Hin & Hc).
    apply (keyword_is_price_query kw).
    + simpl in Hin. destruct Hin as [<-|[<-|[<-|[<-|[]]]]]; in_list.
    + rewrite Hs. apply contains_iff_substring, substring_app_r.
      now apply contains_iff_substring.
  - left.
    eapply search_found in H as (pre & s' & Hs & HP);
      [|intros pre s' _ pv n cs Hm; exact (price_of_match _ _ _ _ _ Hm)].
    destruct HP as (kw & Hin & Hc).
    apply (keyword_is_price_query kw).
    + simpl in Hin. destruct Hin as [<-|[<-|[<-|[<-|[]]]]]; in_list.
    + rewrite Hs. apply contains_iff_substring, substring_app_r.
      now apply contains_iff_substring.
  - left.
    eapply search_found in H as (pre & s' & Hs & HP);
      [|intros pre s' _ pv n cs Hm; exact (how_expensive_match _ _ _ _ _ Hm)].
    destruct HP as (kw & Hin & Hc).
    apply (keyword_is_price_query kw).
    + simpl in Hin. destruct Hin as [<-|[<-|[]]]; in_list.
    + rewrite Hs. apply contains_iff_substring, substring_app_r.
      now apply contains_iff_substring.
Qed.

Lemma direct_query_is_price_query_witness :
  pattern_matching.is_price_query "What is the fee for an MRI?" = true
  \/ exists before gap after,
       Py.lower "What is the fee for an MRI?"
       = before +:+ "how" +:+ gap +:+ "much" +:+ after
       /\ gap <> "" /\ gap <> " " /\ Py.all_chars Py.isspace gap = true.
Proof.
  apply direct_query_is_price_query. vm_compute. reflexivity.
Defined.

(** The exception is met: with a tabulation between the two words the
    question is a direct price query and no price query. *)
Example how_tab_much_direct_only :
  let text := "How" +:+ String "009" "much is an MRI" in
  pattern_matching.is_direct_price_query text = true
  /\ pattern_matching.is_price_query text = false.
Proof. split; vm_compute; reflexivity. Qed.
